(** * Data pipelines over a shared data bus: a shallow embedding

    The repository holds five Prefect flows (historic weather, weather
    forecast, public holidays, Leeds footfall, York footfall).  Every flow
    threads one Python dictionary, the [data_bus], through an ordered list
    of stages.  This development embeds the stages, the pandas cleaning
    code of the Leeds flow and the SQL text of the historic merge, and
    proves properties of them.

    Part I holds the definitions, Part II the theorems. *)

From Stdlib Require Import QArith Ascii.
From stdpp Require Import base option list strings pretty gmap.

Set Warnings "-register-all".

Local Open Scope Z_scope.
Local Open Scope string_scope.
Local Open Scope list_scope.

(* ===================================================================== *)
(** * Part I: definitions *)
(* ===================================================================== *)

(** ** Python values *)

(** A dataframe over cells of type [C]: its column labels in order and
    its rows, each row a finite map from label to cell.  Labels are
    unique, as [read_csv] makes them. *)
Record DataFrame (C : Type) : Type := Frame {
  columns : list string;
  rows : list (gmap string C)
}.
Arguments Frame {C} columns rows.
Arguments columns {C} d.
Arguments rows {C} d.

(** The Python values of the flows: JSON documents, dataframe cells,
    dataframes.  [ONaN] is the float [nan] pandas uses for a missing
    cell, [ONaT] its datetime counterpart; [OTime] is a [date],
    [datetime] or [Timestamp], counted from the epoch.  A float is
    represented by the rational it denotes; float arithmetic itself is
    left to [Services] below.  A dictionary keeps its insertion order. *)
Inductive obj : Type :=
  | ONone
  | ONaN
  | ONaT
  | OBool (b : bool)
  | OInt (z : Z)
  | OFloat (q : Q)
  | OStr (s : string)
  | OTime (t : Z)
  | OList (l : list obj)
  | ODict (d : list (string * obj))
  | OFrame (df : DataFrame obj).

#[global] Instance obj_inhabited : Inhabited obj := populate ONaN.

(** The exceptions the embedded code can raise.  [External] stands for a
    failure inside an external service (HTTP, storage, warehouse). *)
Inductive exn : Type :=
  | KeyError (k : string)
  | TypeError
  | AttributeError
  | ValueError
  | IndexError
  | External (msg : string).

Inductive result (A : Type) : Type :=
  | Ok (a : A)
  | Raise (e : exn).
Arguments Ok {A} a.
Arguments Raise {A} e.

Definition rbind {A B} (r : result A) (k : A -> result B) : result B :=
  match r with
  | Ok a => k a
  | Raise e => Raise e
  end.

Declare Scope result_scope.
Delimit Scope result_scope with res.
Notation "x <- r ; k" := (rbind r (fun x => k))
  (at level 100, r at next level, right associativity, only parsing) : result_scope.

(** [for x in xs: acc.append(f(x))] where [f] may raise. *)
Fixpoint map_result {A B} (f : A -> result B) (xs : list A) : result (list B) :=
  match xs with
  | [] => Ok []
  | x :: xs' =>
      (y <- f x ; ys <- map_result f xs' ; Ok (y :: ys))%res
  end.

(** [d[k]] on a dictionary. *)
Fixpoint dict_get (d : list (string * obj)) (k : string) : option obj :=
  match d with
  | [] => None
  | (k', v) :: d' => if decide (k' = k) then Some v else dict_get d' k
  end.

(** [d[k] = v]: the value is replaced in place when the key exists, the
    pair is added at the end otherwise. *)
Fixpoint dict_set (d : list (string * obj)) (k : string) (v : obj) : list (string * obj) :=
  match d with
  | [] => [(k, v)]
  | (k', v') :: d' => if decide (k' = k) then (k, v) :: d' else (k', v') :: dict_set d' k v
  end.

(** [o[k]]: subscripting with a string key. *)
Definition subscript (o : obj) (k : string) : result obj :=
  match o with
  | ODict d => match dict_get d k with Some v => Ok v | None => Raise (KeyError k) end
  | _ => Raise TypeError
  end.

(** [p] occurs in [s] ([p in s] on two strings). *)
Fixpoint substring_of (p s : string) : bool :=
  String.prefix p s
  || match s with
     | EmptyString => false
     | String _ s' => substring_of p s'
     end.

(** [k in o] for a string [k]: key membership in a dictionary, element
    membership in a list, substring test in a string. *)
Definition contains (o : obj) (k : string) : result bool :=
  match o with
  | ODict d => Ok (bool_decide (is_Some (dict_get d k)))
  | OList l =>
      Ok (existsb (fun x => match x with OStr s => bool_decide (s = k) | _ => false end) l)
  | OStr s => Ok (substring_of k s)
  | _ => Raise TypeError
  end.

Fixpoint characters (s : string) : list obj :=
  match s with
  | EmptyString => []
  | String c s' => OStr (String c EmptyString) :: characters s'
  end.

(** [for x in o] over a list, over the keys of a dictionary, over the
    characters of a string. *)
Definition iterate (o : obj) : result (list obj) :=
  match o with
  | OList l => Ok l
  | ODict d => Ok (map (fun kv => OStr kv.1) d)
  | OStr s => Ok (characters s)
  | _ => Raise TypeError
  end.

(** [o.items()] *)
Definition items (o : obj) : result (list (string * obj)) :=
  match o with
  | ODict d => Ok d
  | _ => Raise AttributeError
  end.

(** A value used where the code needs a string ([a + '...'],
    [a.replace], [a.split]). *)
Definition as_str (o : obj) : result string :=
  match o with
  | OStr s => Ok s
  | _ => Raise TypeError
  end.

(** A value used through a dataframe method or attribute. *)
Definition as_frame (o : obj) : result (DataFrame obj) :=
  match o with
  | OFrame df => Ok df
  | _ => Raise AttributeError
  end.

(** [o == s] for a string [s] *)
Definition str_equals (o : obj) (s : string) : bool :=
  match o with
  | OStr s' => bool_decide (s' = s)
  | _ => false
  end.

(** [o == True] *)
Definition equals_true (o : obj) : bool :=
  match o with
  | OBool b => b
  | OInt z => bool_decide (z = 1)
  | OFloat q => Qeq_bool q 1
  | _ => false
  end.

(** [str.lower()] on the ASCII letters. *)
Definition lower_ascii (c : ascii) : ascii :=
  let n := nat_of_ascii c in
  if ((65 <=? n) && (n <=? 90))%nat then ascii_of_nat (n + 32) else c.

Fixpoint lower (s : string) : string :=
  match s with
  | EmptyString => EmptyString
  | String c s' => String (lower_ascii c) (lower s')
  end.

Fixpoint pad_left (n : nat) (fill : ascii) (s : string) : string :=
  match n with
  | O => s
  | S n' => String fill (pad_left n' fill s)
  end.

(** [s.rjust(width, fill)] *)
Definition rjust (width : nat) (fill : ascii) (s : string) : string :=
  pad_left (width - String.length s) fill s.

(** [s.replace(old, new)] for a non-empty [old]: occurrences are replaced
    from the left and do not overlap; [skip] counts the characters of an
    occurrence still to be passed over. *)
Fixpoint replace_from (old new : string) (skip : nat) (s : string) : string :=
  match s with
  | EmptyString => EmptyString
  | String c s' =>
      match skip with
      | S k => replace_from old new k s'
      | O =>
          if String.prefix old s
          then String.app new (replace_from old new (String.length old - 1) s')
          else String c (replace_from old new 0 s')
      end
  end.

Definition str_replace (old new s : string) : string := replace_from old new 0 s.

(** [s.split(sep)[-1]] for a one-character [sep]: what follows the last
    separator, the whole string when there is none. *)
Fixpoint last_field (sep : ascii) (s : string) : string :=
  match s with
  | EmptyString => EmptyString
  | String c s' =>
      if substring_of (String sep EmptyString) s'
      then last_field sep s'
      else if decide (c = sep) then s' else s
  end.

(** ** What the flows take from outside

    The external collaborators (HTTP, secret manager, object storage,
    warehouse, clock, file system) act on a [World]; [extern name args]
    is one call to them.  The float and calendar routines of Python and
    pandas are taken as given functions as well. *)
Class Services : Type := {
  World : Type;
  extern : string -> list obj -> World -> result obj * World;
  (** [a - b] on floats *)
  float_sub : Q -> Q -> Q;
  (** [round(a, ndigits)] *)
  float_round : Q -> Z -> Q;
  (** [float(s)] for a string [s] *)
  float_of_string : string -> option Q;
  (** [str(a)] for a float [a] *)
  float_str : Q -> string;
  (** [str(t)] for a date or timestamp [t] *)
  time_str : Z -> string;
  (** [str(o)] for a list, a dictionary or a dataframe *)
  container_str : obj -> string;
  (** [t.strftime(fmt)] *)
  strftime : Z -> string -> string;
  (** [datetime.strptime(s, fmt)] *)
  strptime : string -> string -> option Z;
  (** [datetime.fromtimestamp(a)] and [date.fromtimestamp(a)] *)
  datetime_fromtimestamp : Q -> Z;
  date_fromtimestamp : Q -> Z;
  (** [t.date()], [t - timedelta(n)], [time.mktime(t.timetuple())] and
      the year of [t] *)
  date_of : Z -> Z;
  minus_days : Z -> Z -> Z;
  mktime : Z -> Q;
  year_of : Z -> Z;
  (** [int(s)] for a string [s] *)
  int_of_string : string -> option Z;
  (** [r.json()] for an HTTP response [r]; [None] when the body is not
      JSON *)
  response_json : obj -> option obj;
  (** [pd.to_datetime] on one cell that is not missing, with the format
      when one is given; [None] when the cell cannot be read as a time *)
  to_datetime_scalar : option string -> obj -> option Z
}.

(** [str(o)] *)
Definition py_str `{Services} (o : obj) : string :=
  match o with
  | ONone => "None"
  | ONaN => "nan"
  | ONaT => "NaT"
  | OBool true => "True"
  | OBool false => "False"
  | OInt z => pretty z
  | OFloat q => float_str q
  | OStr s => s
  | OTime t => time_str t
  | OList _ | ODict _ | OFrame _ => container_str o
  end.

(** [float(o)] *)
Definition py_float `{Services} (o : obj) : result obj :=
  match o with
  | OBool b => Ok (OFloat (if b then 1 else 0))
  | OInt z => Ok (OFloat (inject_Z z))
  | OFloat q => Ok (OFloat q)
  | ONaN => Ok ONaN
  | OStr s => match float_of_string s with Some q => Ok (OFloat q) | None => Raise ValueError end
  | _ => Raise TypeError
  end.

(** ** Dataframe operations *)

Module pandas.

(** [pd.isna] on one cell. *)
Definition isna (v : obj) : bool :=
  match v with
  | ONone | ONaN | ONaT => true
  | _ => false
  end.

(** The cell of row [r] under label [c]. *)
Definition cell (r : gmap string obj) (c : string) : obj := default ONaN (r !! c).

Definition add_label (c : string) (cols : list string) : list string :=
  if decide (c ∈ cols) then cols else cols ++ [c].

(** [df[c] = <series computed row by row from df>]: the column is
    replaced in place when it exists and appended otherwise. *)
Definition assign (df : DataFrame obj) (c : string) (f : gmap string obj -> obj)
    : DataFrame obj :=
  {| columns := add_label c (columns df);
     rows := map (fun r => <[c := f r]> r) (rows df) |}.

(** The same when computing a cell may raise: the first failing row
    aborts the whole assignment. *)
Definition assign_result (df : DataFrame obj) (c : string)
    (f : gmap string obj -> result obj) : result (DataFrame obj) :=
  (rs <- map_result (fun r => (v <- f r ; Ok (<[c := v]> r))%res) (rows df) ;
   Ok {| columns := add_label c (columns df); rows := rs |})%res.

(** Keep the cells of the labels [cols] only. *)
Definition project (cols : list string) (r : gmap string obj) : gmap string obj :=
  filter (fun kv => kv.1 ∈ cols) r.

(** [df.drop(labels, axis=1)] for the labels that satisfy [p]. *)
Definition drop_columns (p : string -> bool) (df : DataFrame obj) : DataFrame obj :=
  let keep := List.filter (fun c => negb (p c)) (columns df) in
  {| columns := keep; rows := map (project keep) (rows df) |}.

(** [df[[c1, ..., cn]]] *)
Definition select (df : DataFrame obj) (cols : list string) : result (DataFrame obj) :=
  match List.find (fun c => bool_decide (c ∉ columns df)) cols with
  | Some c => Raise (KeyError c)
  | None => Ok {| columns := cols; rows := map (project cols) (rows df) |}
  end.

(** [df[c].isna().sum()] *)
Definition count_na (df : DataFrame obj) (c : string) : result nat :=
  if decide (c ∈ columns df)
  then Ok (length (List.filter (fun r => isna (cell r c)) (rows df)))
  else Raise (KeyError c).

(** [df.dropna(subset=[c])] *)
Definition dropna_subset (df : DataFrame obj) (c : string) : result (DataFrame obj) :=
  if decide (c ∈ columns df)
  then Ok {| columns := columns df;
             rows := List.filter (fun r => negb (isna (cell r c))) (rows df) |}
  else Raise (KeyError c).

(** A row with no missing cell under any label of [cols]. *)
Definition complete (cols : list string) (r : gmap string obj) : bool :=
  forallb (fun c => negb (isna (cell r c))) cols.

(** [df.dropna()] *)
Definition dropna (df : DataFrame obj) : DataFrame obj :=
  {| columns := columns df; rows := List.filter (complete (columns df)) (rows df) |}.

(** [pd.to_datetime(series)] on one cell: a missing cell becomes
    [NaT], any other is read as a time or the conversion raises. *)
Definition to_datetime `{Services} (format : option string) (v : obj) : result obj :=
  if isna v then Ok ONaT
  else match to_datetime_scalar format v with
       | Some t => Ok (OTime t)
       | None => Raise ValueError
       end.

(** Cells a hash table accepts. *)
Definition hashable (v : obj) : bool :=
  match v with
  | OList _ | ODict _ | OFrame _ => false
  | _ => true
  end.

Definition number (v : obj) : option Q :=
  match v with
  | OBool b => Some (if b then 1 else 0)%Q
  | OInt z => Some (inject_Z z)
  | OFloat q => Some q
  | _ => None
  end.

(** Equality of two cells as [duplicated] sees it: missing cells are
    alike, numbers compare by value, text and times by identity. *)
Definition same_cell (a b : obj) : bool :=
  if isna a then isna b
  else match number a, number b with
       | Some x, Some y => Qeq_bool x y
       | None, None =>
           match a, b with
           | OStr s, OStr s' => bool_decide (s = s')
           | OTime t, OTime t' => bool_decide (t = t')
           | _, _ => false
           end
       | _, _ => false
       end.

Definition same_row (cols : list string) (r1 r2 : gmap string obj) : bool :=
  forallb (fun c => same_cell (cell r1 c) (cell r2 c)) cols.

(** [df[~df.duplicated()]]: a row is dropped when a row equal to it
    comes earlier in the frame. *)
Fixpoint keep_first (cols : list string) (earlier rs : list (gmap string obj))
    : list (gmap string obj) :=
  match rs with
  | [] => []
  | r :: rs' =>
      if existsb (same_row cols r) earlier
      then keep_first cols (earlier ++ [r]) rs'
      else r :: keep_first cols (earlier ++ [r]) rs'
  end.

(** [df.drop_duplicates()] *)
Definition drop_duplicates (df : DataFrame obj) : result (DataFrame obj) :=
  if forallb (fun r => forallb (fun c => hashable (cell r c)) (columns df)) (rows df)
  then Ok {| columns := columns df; rows := keep_first (columns df) [] (rows df) |}
  else Raise TypeError.

(** [pd.concat(objs, ignore_index=True)]: the labels of all the frames
    in order of first appearance, the rows of all the frames in order;
    a cell under a label its frame lacks is missing. *)
Definition concat (objs : list obj) : result (DataFrame obj) :=
  match objs with
  | [] => Raise ValueError
  | _ =>
      (dfs <- map_result (fun o => match o with
                                   | OFrame d => Ok d
                                   | _ => Raise TypeError
                                   end) objs ;
       Ok {| columns := foldl (fun cs d => foldl (fun cs c => add_label c cs) cs (columns d))
                          [] dfs;
             rows := flat_map (fun d => map (project (columns d)) (rows d)) dfs |})%res
  end.

(** [df.rename(columns=mapping)], [f] being the mapping extended by
    the identity. *)
Definition rename (f : string -> string) (df : DataFrame obj) : DataFrame obj :=
  {| columns := map f (columns df);
     rows := map (fun r => list_to_map (map (fun kv => (f kv.1, kv.2)) (map_to_list r)))
               (rows df) |}.

(** [df.fillna(v)] *)
Definition fillna (v : obj) (df : DataFrame obj) : DataFrame obj :=
  {| columns := columns df;
     rows := map (fun r => list_to_map
                    (map (fun c => (c, if isna (cell r c) then v else cell r c)) (columns df)))
               (rows df) |}.

(** [df[c]] must exist. *)
Definition require (df : DataFrame obj) (c : string) : result unit :=
  if decide (c ∈ columns df) then Ok tt else Raise (KeyError c).

(** [pd.DataFrame(records)] for a list of dictionaries: the labels are
    the keys in order of first appearance, each dictionary is a row. *)
Definition labels_of_records (records : list (list (string * obj))) : list string :=
  foldl (fun cols rec => foldl (fun cs kv => add_label kv.1 cs) cols rec) [] records.

Definition DataFrame_of_records (records : list (list (string * obj))) : DataFrame obj :=
  {| columns := labels_of_records records;
     rows := map (fun rec => list_to_map rec) records |}.

End pandas.

(** ** The data bus and the stage monad *)

(** What the variable [data_bus] of a flow holds: the dictionary of the
    run, or [None]. *)
Inductive busref : Type :=
  | TheBus
  | NoBus.

Section machine.
Context `{Services}.

(** The dictionary object behind [data_bus], shared by all the stages
    of a run and changed in place, and the outside world. *)
Record machine : Type := Machine {
  bus : gmap string obj;
  world : World
}.

(** A computation that reads and changes the machine and returns a
    value or raises; the machine is kept in both cases. *)
Definition M (A : Type) : Type := machine -> result A * machine.

Definition ret {A} (a : A) : M A := fun m => (Ok a, m).

Definition raise {A} (e : exn) : M A := fun m => (Raise e, m).

Definition bind {A B} (c : M A) (k : A -> M B) : M B :=
  fun m =>
    match c m with
    | (Ok a, m') => k a m'
    | (Raise e, m') => (Raise e, m')
    end.

Definition lift {A} (r : result A) : M A := fun m => (r, m).

(** [data_bus[k]] *)
Definition getitem (data_bus : busref) (k : string) : M obj :=
  fun m =>
    match data_bus with
    | NoBus => (Raise TypeError, m)
    | TheBus =>
        match bus m !! k with
        | Some v => (Ok v, m)
        | None => (Raise (KeyError k), m)
        end
    end.

(** [data_bus[k] = v] *)
Definition setitem (data_bus : busref) (k : string) (v : obj) : M unit :=
  fun m =>
    match data_bus with
    | NoBus => (Raise TypeError, m)
    | TheBus => (Ok tt, {| bus := <[k := v]> (bus m); world := world m |})
    end.

(** One call to an external collaborator. *)
Definition call (name : string) (args : list obj) : M obj :=
  fun m =>
    let (r, w) := extern name args (world m) in
    (r, {| bus := bus m; world := w |}).

(** [for x in xs: acc = body(acc, x)] *)
Fixpoint foldM {A S} (body : S -> A -> M S) (xs : list A) (acc : S) : M S :=
  match xs with
  | [] => ret acc
  | x :: xs' => bind (body acc x) (foldM body xs')
  end.

(** ** Prefect tasks and flows *)

(** A function decorated with [@task]: its name, its number of retries
    (none unless given) and the function. *)
Record task : Type := Task {
  task_name : string;
  retries : nat;
  fn : busref -> M busref
}.

(** Calling a task runs its function; when the function raises and
    retries are left it is run again on the same arguments.  [log]
    receives the task name at every run of the function. *)
Fixpoint run_attempts (retries_left : nat) (t : task) (data_bus : busref)
    (m : machine) (log : list string) : result busref * machine * list string :=
  match fn t data_bus m with
  | (Ok r, m') => (Ok r, m', log ++ [task_name t])
  | (Raise e, m') =>
      match retries_left with
      | O => (Raise e, m', log ++ [task_name t])
      | S k => run_attempts k t data_bus m' (log ++ [task_name t])
      end
  end.

Definition run_task (t : task) (data_bus : busref) (m : machine) (log : list string)
    : result busref * machine * list string :=
  run_attempts (retries t) t data_bus m log.

(** [for stage in pipeline_stages: data_bus = stage(data_bus)] *)
Fixpoint run_stages (pipeline_stages : list task) (data_bus : busref)
    (m : machine) (log : list string) : result busref * machine * list string :=
  match pipeline_stages with
  | [] => (Ok data_bus, m, log)
  | stage :: rest =>
      match run_task stage data_bus m log with
      | (Ok data_bus', m', log') => run_stages rest data_bus' m' log'
      | (Raise e, m', log') => (Raise e, m', log')
      end
  end.

End machine.

Declare Scope flow_scope.
Delimit Scope flow_scope with flow.
Notation "x <- c ; k" := (bind c (fun x => k))
  (at level 100, c at next level, right associativity, only parsing) : flow_scope.
Notation "c ;; k" := (bind c (fun _ => k))
  (at level 100, right associativity, only parsing) : flow_scope.

(** A value used through a [date]/[datetime] method. *)
Definition as_time (o : obj) : result Z :=
  match o with
  | OTime t => Ok t
  | _ => Raise AttributeError
  end.

(** [datetime.fromtimestamp(o)] and [date.fromtimestamp(o)], [conv]
    being the conversion of the number to local time. *)
Definition fromtimestamp (conv : Q -> Z) (o : obj) : result obj :=
  match o with
  | OBool b => Ok (OTime (conv (if b then 1%Q else 0%Q)))
  | OInt z => Ok (OTime (conv (inject_Z z)))
  | OFloat q => Ok (OTime (conv q))
  | ONaN => Raise ValueError
  | _ => Raise TypeError
  end.

(** [a - 273.15] for the result [a] of [float(...)]. *)
Definition minus_273_15 `{Services} (a : obj) : obj :=
  match a with
  | OFloat q => OFloat (float_sub q (27315 # 100))
  | _ => ONaN
  end.

(** [round(a, 1)] for a float [a]. *)
Definition round_1 `{Services} (a : obj) : obj :=
  match a with
  | OFloat q => OFloat (float_round q 1)
  | _ => ONaN
  end.

(** [r.json()] *)
Definition json `{Services} (r : obj) : result obj :=
  match response_json r with
  | Some o => Ok o
  | None => Raise ValueError
  end.

(** ** api_functions.py *)

Module api_functions.
Section with_services.
Context `{Services}.
Local Open Scope flow_scope.

(** [init(filename)]: the settings document becomes the data bus of
    the run.  The document is a JSON object. *)
Definition init (filename : string) : M busref :=
  doc <- call "json.loads" [OStr (String.app filename ".json")] ;
  match doc with
  | ODict d => fun m => (Ok TheBus, {| bus := list_to_map d; world := world m |})
  | _ => raise TypeError
  end.

Definition get_api_key (data_bus : busref) : M busref :=
  gcp_project <- getitem data_bus "gcp_project" ;
  api_key_secret <- getitem data_bus "api-key-secret" ;
  _ <- call "secretmanager.SecretManagerServiceClient" [] ;
  secret <- call "access_secret_version"
    [OStr (String.app "projects/" (String.app (py_str gcp_project)
             (String.app "/secrets/" (String.app (py_str api_key_secret)
                "/versions/latest"))))] ;
  setitem data_bus "api_key" secret ;;
  ret data_bus.

Definition load_raw_to_bucket (data_bus : busref) : M busref :=
  now <- call "datetime.now" [] ;
  now <- lift (as_time now) ;
  let timestamp := strftime now "%Y-%m-%d %H-%M-%S" in
  storage_raw_folder <- getitem data_bus "storage_raw_folder" ;
  let filename :=
    String.app (py_str storage_raw_folder) (String.app "/" (String.app timestamp ".json")) in
  _ <- call "storage.Client" [] ;
  storage_bucket <- getitem data_bus "storage_bucket" ;
  bucket <- call "get_bucket" [storage_bucket] ;
  api_response <- getitem data_bus "api_response" ;
  _ <- call "upload_from_string" [bucket; OStr filename; OStr (py_str api_response)] ;
  ret data_bus.

Definition load_df_to_bucket (data_bus : busref) : M busref :=
  now <- call "datetime.now" [] ;
  now <- lift (as_time now) ;
  let timestamp := strftime now "%Y-%m-%d %H-%M-%S" in
  storage_processed_folder <- getitem data_bus "storage_processed_folder" ;
  let filename :=
    String.app (py_str storage_processed_folder)
      (String.app "/" (String.app timestamp ".csv")) in
  _ <- call "storage.Client" [] ;
  storage_bucket <- getitem data_bus "storage_bucket" ;
  bucket <- call "get_bucket" [storage_bucket] ;
  df <- getitem data_bus "df" ;
  df <- lift (as_frame df) ;
  _ <- call "upload_from_string" [bucket; OStr filename; OFrame df; OStr "text/csv"] ;
  ret data_bus.

Definition load_df_to_bigquery (data_bus : busref) : M busref :=
  bq_dataset <- getitem data_bus "bq_dataset" ;
  bq_dataset <- lift (as_str bq_dataset) ;
  bq_tablename <- getitem data_bus "bq_tablename" ;
  bq_tablename <- lift (as_str bq_tablename) ;
  let table_id := String.app bq_dataset (String.app "." bq_tablename) in
  df <- getitem data_bus "df" ;
  gcp_project <- getitem data_bus "gcp_project" ;
  schema <- getitem data_bus "schema" ;
  _ <- call "pandas_gbq.to_gbq" [df; OStr table_id; gcp_project; OStr "replace"; schema] ;
  ret data_bus.

Definition init_task : string := "Pipeline Initialisation".
Definition get_api_key_task : task := Task "Get API Key" 0 get_api_key.
Definition load_raw_to_bucket_task : task :=
  Task "Load the raw API response to GCP bucket" 0 load_raw_to_bucket.
Definition load_df_to_bucket_task : task :=
  Task "Load the processed dataframe as a CSV to bucket" 0 load_df_to_bucket.
Definition load_df_to_bigquery_task : task :=
  Task "Load the processed dataframe to BigQuery" 0 load_df_to_bigquery.

End with_services.
End api_functions.

(** ** The warehouse tables of the historic flow *)

Module historic.

(** One row of [weather.historic_yyyymmdd] and of
    [weather.historic_complete]: the columns [process_to_df] writes.
    [city] is the key of the response dictionary and [date] comes from
    [datetime.fromtimestamp], so neither is ever NULL. *)
Record row : Type := Row {
  city : string;
  date : Z;
  temp : obj;
  pressure : obj;
  humidity : obj;
  clouds : obj;
  wind : obj;
  rain : obj;
  snow : obj
}.

Abbreviation table := (list row).

(** [ON historic.city = latest.city AND historic.date = latest.date] *)
Definition on_clause (historic latest : row) : Prop :=
  city historic = city latest /\ date historic = date latest.

#[global] Instance on_clause_dec h l : Decision (on_clause h l).
Proof. unfold on_clause. apply _. Defined.

(** [historic LEFT JOIN latest ON ...]: every historic row paired with
    each latest row that satisfies the ON clause, or once with NULLs
    when none does. *)
Definition left_join (historic latest : table) : list (row * option row) :=
  flat_map
    (fun h =>
       match filter (on_clause h) latest with
       | [] => [(h, None)]
       | ms => map (fun l => (h, Some l)) ms
       end)
    historic.

(** [WHERE latest.date IS NULL] *)
Definition latest_date_is_null (j : row * option row) : Prop :=
  j.2 = None.

#[global] Instance latest_date_is_null_dec j : Decision (latest_date_is_null j).
Proof. unfold latest_date_is_null. apply _. Defined.

(** The query of [update_historic_table]:
    [SELECT * FROM latest UNION ALL
     SELECT historic.* FROM historic LEFT JOIN latest ON ... WHERE latest.date IS NULL],
    whose result replaces the destination table ([WRITE_TRUNCATE]). *)
Definition merge_query (latest historic : table) : table :=
  latest ++ map fst (filter latest_date_is_null (left_join historic latest)).

Definition key (r : row) : string * Z := (city r, date r).

Definition unique_keys (t : table) : Prop := NoDup (key <$> t).

(** The records a table holds under one composite key. *)
Definition records_at (k : string * Z) (t : table) : list row :=
  filter (fun r => key r = k) t.

(** [daterange(start_date, end_date)], a date being its day number:
    [start_date + timedelta(n)] for [n] in
    [range(int((end_date - start_date).days))]. *)
Definition daterange (start_date end_date : Z) : list Z :=
  map (fun n => start_date + n) (seqZ 0 (end_date - start_date)).

Section with_services.
Context `{Services}.
Local Open Scope flow_scope.

Definition get_data (data_bus : busref) : M busref :=
  api_key <- getitem data_bus "api_key" ;
  date <- getitem data_bus "date" ;
  date <- lift (as_time date) ;
  let start_date := OFloat (mktime date) in
  setitem data_bus "api_response" (ODict []) ;;
  api_cities <- getitem data_bus "api_cities" ;
  api_cities <- lift (iterate api_cities) ;
  foldM
    (fun (_ : unit) city =>
       lat <- lift (subscript city "lat") ;
       lon <- lift (subscript city "lon") ;
       r <- call "requests.get"
         [OStr (String.app "https://history.openweathermap.org/data/2.5/history/city?lat="
            (String.app (py_str lat) (String.app "&lon=" (String.app (py_str lon)
              (String.app "&type=hour&start=" (String.app (py_str start_date)
                (String.app "&cnt=24&appid=" (py_str api_key))))))))] ;
       r <- lift (json r) ;
       api_response <- getitem data_bus "api_response" ;
       name <- lift (subscript city "city") ;
       name <- lift (as_str name) ;
       d <- lift (items api_response) ;
       setitem data_bus "api_response" (ODict (dict_set d name r)))
    api_cities tt ;;
  ret data_bus.

(** The dictionary literal [row = {...}] built for one element of
    [...['list']]. *)
Definition base_row (city : string) (hour : obj) : result (list (string * obj)) :=
  (dt <- subscript hour "dt" ;
   date <- fromtimestamp datetime_fromtimestamp dt ;
   main <- subscript hour "main" ;
   temp <- subscript main "temp" ;
   temp <- py_float temp ;
   main <- subscript hour "main" ;
   pressure <- subscript main "pressure" ;
   main <- subscript hour "main" ;
   humidity <- subscript main "humidity" ;
   clouds <- subscript hour "clouds" ;
   clouds <- subscript clouds "all" ;
   wind <- subscript hour "wind" ;
   wind <- subscript wind "speed" ;
   Ok [("city", OStr city); ("date", date); ("temp", round_1 (minus_273_15 temp));
       ("pressure", pressure); ("humidity", humidity); ("clouds", clouds);
       ("wind", wind)])%res.

(** The row appended to [rows_list]: the literal, then the two
    [if ... in hour: ... else: ...] statements. *)
Definition hour_row (city : string) (hour : obj) : result (list (string * obj)) :=
  (row <- base_row city hour ;
   has_rain <- contains hour "rain" ;
   row <- (if has_rain : bool
           then (rain <- subscript hour "rain" ;
                 rain <- subscript rain "1h" ;
                 Ok (dict_set row "rain" rain))
           else Ok (dict_set row "rain" (OFloat 0))) ;
   has_snow <- contains hour "snow" ;
   if has_snow : bool
   then (snow <- subscript hour "snow" ;
         snow <- subscript snow "1h" ;
         Ok (dict_set row "snow" snow))
   else Ok (dict_set row "snow" (OFloat 0)))%res.

(** The two loops of [process_to_df]: [rows_list] for a response. *)
Fixpoint city_rows (api_response : obj) (cities : list obj)
    : result (list (list (string * obj))) :=
  match cities with
  | [] => Ok []
  | city :: rest =>
      (city <- as_str city ;
       response <- subscript api_response city ;
       hours <- subscript response "list" ;
       hours <- iterate hours ;
       rows <- map_result (hour_row city) hours ;
       more <- city_rows api_response rest ;
       Ok (rows ++ more))%res
  end.

Definition rows_list (api_response : obj) : result (list (list (string * obj))) :=
  (cities <- iterate api_response ; city_rows api_response cities)%res.

Definition process_to_df (data_bus : busref) : M busref :=
  api_response <- getitem data_bus "api_response" ;
  rows <- lift (rows_list api_response) ;
  setitem data_bus "df" (OFrame (pandas.DataFrame_of_records rows)) ;;
  ret data_bus.

Definition update_tablename (data_bus : busref) : M busref :=
  date <- getitem data_bus "date" ;
  date <- lift (as_time date) ;
  let date := strftime date "%Y%m%d" in
  bq_tablename <- getitem data_bus "bq_tablename" ;
  bq_tablename <- lift (as_str bq_tablename) ;
  setitem data_bus "bq_tablename" (OStr (String.app bq_tablename (String.app "_" date))) ;;
  ret data_bus.

(** The text of the query; [merge_query] above is what it computes. *)
Definition sql (date : string) : string :=
  String.app "SELECT * FROM `nwilliams-msc-comp-sci.weather.historic_"
 (String.app date
 (String.app "` UNION ALL SELECT historic.* FROM `nwilliams-msc-comp-sci.weather.historic_complete` as historic LEFT JOIN `nwilliams-msc-comp-sci.weather.historic_"
 (String.app date
    "` as latest ON historic.city = latest.city AND historic.date = latest.date WHERE latest.date IS NULL"))).

(** This stage has no [return]: its caller receives [None]. *)
Definition update_historic_table (data_bus : busref) : M busref :=
  date <- getitem data_bus "date" ;
  date <- lift (as_time date) ;
  let date := strftime date "%Y%m%d" in
  client <- call "bigquery.Client" [] ;
  gcp_project <- getitem data_bus "gcp_project" ;
  gcp_project <- lift (as_str gcp_project) ;
  bq_dataset <- getitem data_bus "bq_dataset" ;
  bq_dataset <- lift (as_str bq_dataset) ;
  bq_complete_history <- getitem data_bus "bq_complete_history" ;
  bq_complete_history <- lift (as_str bq_complete_history) ;
  let table_id :=
    String.app gcp_project (String.app "." (String.app bq_dataset
      (String.app "." bq_complete_history))) in
  query_job <- call "client.query" [client; OStr (sql date); OStr table_id; OStr "WRITE_TRUNCATE"] ;
  _ <- call "query_job.result" [query_job] ;
  ret NoBus.

Definition pipeline_stages : list task :=
  [ api_functions.get_api_key_task;
    Task "Get historic weather data from API" 0 get_data;
    api_functions.load_raw_to_bucket_task;
    Task "Process raw data into a dataframe" 0 process_to_df;
    api_functions.load_df_to_bucket_task;
    Task "Update output tablename to historic_yyyymmdd" 0 update_tablename;
    api_functions.load_df_to_bigquery_task;
    Task "Update historic data table" 0 update_historic_table ].

(** The first lines of [run_pipeline(date)]: the date of the run is
    yesterday unless one is given as text. *)
Definition set_date (date : obj) (data_bus : busref) : M unit :=
  date <- match date with
          | ONone =>
              now <- call "datetime.now" [] ;
              now <- lift (as_time now) ;
              ret (OTime (date_of (minus_days now 1)))
          | OStr s =>
              match strptime s "%Y-%m-%d" with
              | Some t => ret (OTime (date_of t))
              | None => raise ValueError
              end
          | _ => raise TypeError
          end ;
  setitem data_bus "date" date.

Definition run_pipeline (date : obj) (m : machine)
    : result unit * machine * list string :=
  match run_task (Task api_functions.init_task 0
                    (fun _ => api_functions.init "historic-settings")) NoBus m [] with
  | (Raise e, m, log) => (Raise e, m, log)
  | (Ok data_bus, m, log) =>
      match set_date date data_bus m with
      | (Raise e, m) => (Raise e, m, log)
      | (Ok _, m) =>
          match run_stages pipeline_stages data_bus m log with
          | (Ok _, m, log) => (Ok tt, m, log)
          | (Raise e, m, log) => (Raise e, m, log)
          end
      end
  end.

End with_services.
End historic.

(** ** forecast.py *)

Module forecast.
Section with_services.
Context `{Services}.
Local Open Scope flow_scope.

Definition get_forecast (data_bus : busref) : M busref :=
  api_key <- getitem data_bus "api_key" ;
  api_cities <- getitem data_bus "api_cities" ;
  api_cities <- lift (iterate api_cities) ;
  api_responses <-
    foldM
      (fun api_responses city =>
         lat <- lift (subscript city "lat") ;
         lon <- lift (subscript city "lon") ;
         r <- call "requests.get"
           [OStr (String.app "https://pro.openweathermap.org/data/2.5/forecast/climate?lat="
              (String.app (py_str lat) (String.app "&lon=" (String.app (py_str lon)
                (String.app "&appid=" (py_str api_key))))))] ;
         r <- lift (json r) ;
         name <- lift (subscript city "city") ;
         name <- lift (as_str name) ;
         ret (dict_set api_responses name r))
      api_cities [] ;
  setitem data_bus "api_response" (ODict api_responses) ;;
  ret data_bus.

(** The dictionary literal [row = {...}] built for one element of
    [...['list']]. *)
Definition base_row (city : string) (day : obj) : result (list (string * obj)) :=
  (dt <- subscript day "dt" ;
   date <- fromtimestamp date_fromtimestamp dt ;
   temp <- subscript day "temp" ;
   min_temp <- subscript temp "min" ;
   min_temp <- py_float min_temp ;
   temp <- subscript day "temp" ;
   max_temp <- subscript temp "max" ;
   max_temp <- py_float max_temp ;
   pressure <- subscript day "pressure" ;
   humidity <- subscript day "humidity" ;
   clouds <- subscript day "clouds" ;
   wind <- subscript day "speed" ;
   Ok [("city", OStr city); ("date", date); ("min_temp", minus_273_15 min_temp);
       ("max_temp", minus_273_15 max_temp); ("pressure", pressure);
       ("humidity", humidity); ("clouds", clouds); ("wind", wind)])%res.

(** The row appended to [rows_list]: the literal, then the two
    [if ... in day: ... else: ...] statements. *)
Definition day_row (city : string) (day : obj) : result (list (string * obj)) :=
  (row <- base_row city day ;
   has_rain <- contains day "rain" ;
   row <- (if has_rain : bool
           then (rain <- subscript day "rain" ; Ok (dict_set row "rain" rain))
           else Ok (dict_set row "rain" (OFloat 0))) ;
   has_snow <- contains day "snow" ;
   if has_snow : bool
   then (snow <- subscript day "snow" ; Ok (dict_set row "snow" snow))
   else Ok (dict_set row "snow" (OFloat 0)))%res.

Fixpoint city_rows (api_response : obj) (cities : list obj)
    : result (list (list (string * obj))) :=
  match cities with
  | [] => Ok []
  | city :: rest =>
      (city <- as_str city ;
       response <- subscript api_response city ;
       days <- subscript response "list" ;
       days <- iterate days ;
       rows <- map_result (day_row city) days ;
       more <- city_rows api_response rest ;
       Ok (rows ++ more))%res
  end.

Definition rows_list (api_response : obj) : result (list (list (string * obj))) :=
  (cities <- iterate api_response ; city_rows api_response cities)%res.

Definition process_to_df (data_bus : busref) : M busref :=
  api_response <- getitem data_bus "api_response" ;
  rows <- lift (rows_list api_response) ;
  setitem data_bus "df" (OFrame (pandas.DataFrame_of_records rows)) ;;
  ret data_bus.

Definition pipeline_stages : list task :=
  [ api_functions.get_api_key_task;
    Task "Get forecast from API" 0 get_forecast;
    api_functions.load_raw_to_bucket_task;
    Task "Process raw data into a dataframe" 0 process_to_df;
    api_functions.load_df_to_bucket_task;
    api_functions.load_df_to_bigquery_task ].

Definition run_pipeline (m : machine) : result unit * machine * list string :=
  match run_task (Task api_functions.init_task 0
                    (fun _ => api_functions.init "forecast-settings")) NoBus m [] with
  | (Raise e, m, log) => (Raise e, m, log)
  | (Ok data_bus, m, log) =>
      match run_stages pipeline_stages data_bus m log with
      | (Ok _, m, log) => (Ok tt, m, log)
      | (Raise e, m, log) => (Raise e, m, log)
      end
  end.

End with_services.
End forecast.

(** ** holidays.py *)

Module holidays.
Section with_services.
Context `{Services}.
Local Open Scope flow_scope.

(** [int(o)] *)
Definition py_int (o : obj) : result Z :=
  match o with
  | OBool b => Ok (if b then 1 else 0)
  | OInt z => Ok z
  | OFloat q => Ok (Z.quot (Qnum q) (Zpos (Qden q)))
  | OStr s => match int_of_string s with Some z => Ok z | None => Raise ValueError end
  | ONaN => Raise ValueError
  | _ => Raise TypeError
  end.

Definition retrieve_date (data_bus : busref) : M busref :=
  start_year <- getitem data_bus "start_year" ;
  start_year <- lift (py_int start_year) ;
  today <- call "date.today" [] ;
  today <- lift (as_time today) ;
  end_year <- lift (py_int (OStr (strftime today "%Y"))) ;
  let end_year := end_year + 1 in
  responses <-
    foldM
      (fun responses year =>
         r <- call "requests.get"
           [OStr (String.app "https://date.nager.at/api/v3/PublicHolidays/"
              (String.app (pretty year) "/GB"))] ;
         api_response <- lift (json r) ;
         ret (responses ++ [api_response]))
      (seqZ start_year (end_year + 1 - start_year)) [] ;
  setitem data_bus "api_response" (OList responses) ;;
  ret data_bus.

(** The condition under which a day is kept. *)
Definition celebrated_in_england (day : obj) : result bool :=
  (counties <- subscript day "counties" ;
   match counties with
   | ONone => Ok true
   | _ =>
       counties <- subscript day "counties" ;
       listed <- contains counties "GB-ENG" ;
       if listed : bool then Ok true
       else (name <- subscript day "name" ;
             Ok (str_equals name "Saint Patrick's Day"))
   end)%res.

Fixpoint day_rows (days : list obj) : result (list (list (string * obj))) :=
  match days with
  | [] => Ok []
  | day :: rest =>
      (keep <- celebrated_in_england day ;
       rows <- (if keep : bool
                then (date <- subscript day "date" ;
                      name <- subscript day "localName" ;
                      Ok [[("date", date); ("name", name)]])
                else Ok []) ;
       more <- day_rows rest ;
       Ok (rows ++ more))%res
  end.

Fixpoint df_rows (responses : list obj) : result (list (list (string * obj))) :=
  match responses with
  | [] => Ok []
  | response :: rest =>
      (days <- iterate response ;
       rows <- day_rows days ;
       more <- df_rows rest ;
       Ok (rows ++ more))%res
  end.

Definition process_to_df (data_bus : busref) : M busref :=
  api_response <- getitem data_bus "api_response" ;
  responses <- lift (iterate api_response) ;
  rows <- lift (df_rows responses) ;
  setitem data_bus "df" (OFrame (pandas.DataFrame_of_records rows)) ;;
  ret data_bus.

Definition pipeline_stages : list task :=
  [ Task "Get holidays from API" 0 retrieve_date;
    api_functions.load_raw_to_bucket_task;
    Task "Process raw data into a dataframe" 0 process_to_df;
    api_functions.load_df_to_bucket_task;
    api_functions.load_df_to_bigquery_task ].

Definition run_pipeline (m : machine) : result unit * machine * list string :=
  match run_task (Task api_functions.init_task 0
                    (fun _ => api_functions.init "holidays-settings")) NoBus m [] with
  | (Raise e, m, log) => (Raise e, m, log)
  | (Ok data_bus, m, log) =>
      match run_stages pipeline_stages data_bus m log with
      | (Ok _, m, log) => (Ok tt, m, log)
      | (Raise e, m, log) => (Raise e, m, log)
      end
  end.

End with_services.
End holidays.

(** ** footfall_leeds.py *)

Module footfall_leeds.
Section with_services.
Context `{Services}.
Local Open Scope flow_scope.

Definition download_data (data_bus : busref) : M busref :=
  api_url <- getitem data_bus "api_url" ;
  r <- call "requests.get" [api_url] ;
  api_response <- lift (json r) ;
  resources <- lift (subscript api_response "resources") ;
  resources <- lift (items resources) ;
  found <-
    foldM
      (fun (acc : list obj * list (string * obj)) (entry : string * obj) =>
         let (file_list, dfs) := acc in
         let (key, file) := entry in
         format <- lift (subscript file "format") ;
         if str_equals format "csv" then
             url <- lift (subscript file "url") ;
             url <- lift (as_str url) ;
             let file_name := last_field "/" url in
             download_url <- getitem data_bus "download_url" ;
             download_url <- lift (as_str download_url) ;
             let url := str_replace "{{file_name}}" file_name
                          (str_replace "{{key}}" key download_url) in
             exclude_files <- getitem data_bus "exclude_files" ;
             excluded <- lift (contains exclude_files file_name) ;
             if excluded : bool then ret acc
             else
               let file_name := str_replace "%20" "_" file_name in
               df <- call "pd.read_csv" [OStr url] ;
               ret (file_list ++ [OStr file_name], dict_set dfs file_name df)
         else ret acc)
      resources ([], []) ;
  setitem data_bus "file_list" (OList found.1) ;;
  setitem data_bus "dfs" (ODict found.2) ;;
  setitem data_bus "dfs_raw" (OBool true) ;;
  ret data_bus.

Definition load_to_bucket (data_bus : busref) : M busref :=
  dfs_raw <- getitem data_bus "dfs_raw" ;
  sink_folder <- (if equals_true dfs_raw
                  then getitem data_bus "gcp_bucket_folder_raw"
                  else getitem data_bus "gcp_bucket_folder_processed") ;
  _ <- call "storage.Client" [] ;
  gcp_bucket <- getitem data_bus "gcp_bucket" ;
  bucket <- call "get_bucket" [gcp_bucket] ;
  dfs <- getitem data_bus "dfs" ;
  dfs <- lift (items dfs) ;
  foldM
    (fun (_ : unit) (entry : string * obj) =>
       let (key, value) := entry in
       let filename := String.app (py_str sink_folder) (String.app "/" key) in
       value <- lift (as_frame value) ;
       _ <- call "upload_from_string" [bucket; OStr filename; OFrame value; OStr "text/csv"] ;
       ret tt)
    dfs tt ;;
  ret data_bus.

(** [for source in prefered_columns: if source in list(df.columns): ...]
    and the final [return False]. *)
Fixpoint create_preferred_column (df : obj) (prefered_columns : list string)
    (new_column : string) : result obj :=
  match prefered_columns with
  | [] => Ok (OBool false)
  | source :: rest =>
      match df with
      | OFrame d =>
          if decide (source ∈ columns d)
          then Ok (OFrame (pandas.assign d new_column (fun r => pandas.cell r source)))
          else create_preferred_column df rest new_column
      | _ => Raise AttributeError
      end
  end.

Definition is_digit (c : ascii) : bool :=
  let n := nat_of_ascii c in ((48 <=? n) && (n <=? 57))%nat.

(** [(?:\.|\:|$)] at the head of [rest]: a full stop, a colon, the end
    of the text, or the line feed that ends the text. *)
Definition hour_end (rest : string) : bool :=
  match rest with
  | EmptyString => true
  | String c rest' =>
      bool_decide (c = "."%char) || bool_decide (c = ":"%char)
      || (bool_decide (c = "010"%char) && bool_decide (rest' = EmptyString))
  end.

(** [re.search(r"^([0-9]{1,2})(?:\.|\:|$)", x)]: group 1 of the match,
    two digits being tried before one. *)
Definition search_hour (x : string) : option string :=
  match x with
  | EmptyString => None
  | String a rest =>
      if is_digit a then
        match rest with
        | EmptyString => Some (String a EmptyString)
        | String b rest' =>
            if is_digit b && hour_end rest' then Some (String a (String b EmptyString))
            else if hour_end rest then Some (String a EmptyString)
            else None
        end
      else None
  end.

(** A failed search returns [None], on which [.group] raises. *)
Definition clean_hours (x : obj) : result string :=
  match search_hour (py_str x) with
  | Some hour => Ok (String.app (rjust 2 "0"%char hour) ":00:00")
  | None => Raise AttributeError
  end.

Definition drop_unnamed (df : DataFrame obj) : DataFrame obj :=
  pandas.drop_columns (fun c => substring_of "unnamed" (lower c)) df.

(** The cell computed for one row by [df['Hour'].apply(clean_hours)]. *)
Definition hour_cell (r : gmap string obj) : result obj :=
  (hour <- clean_hours (pandas.cell r "Hour") ; Ok (OStr hour))%res.

(** ... by [pd.to_datetime(df['Date'], infer_datetime_format=True)]. *)
Definition date_cell (r : gmap string obj) : result obj :=
  pandas.to_datetime None (pandas.cell r "Date").

(** ... by [df['Date'].dt.strftime('%d/%m/%Y') + ' ' + df['Hour']]: the
    text of [NaT] is missing, and so is its sum with a string. *)
Definition timestamp_text (r : gmap string obj) : obj :=
  match pandas.cell r "Date" with
  | OTime t =>
      OStr (String.app (strftime t "%d/%m/%Y")
              (String.app " " (py_str (pandas.cell r "Hour"))))
  | _ => ONaN
  end.

(** ... by [pd.to_datetime(df['timestamp'], format='%d/%m/%Y %H:%M:%S')]. *)
Definition timestamp_cell (r : gmap string obj) : result obj :=
  pandas.to_datetime (Some "%d/%m/%Y %H:%M:%S") (pandas.cell r "timestamp").

(** [clean_df] from the line that drops the rows without an hour to
    its last line; [df] is what the second [create_preferred_column]
    returned. *)
Definition clean_rows (df : obj) : result (DataFrame obj) :=
  (df <- match df with
         | OFrame d => Ok d
         | _ => Raise TypeError
         end ;
   missing_hours <- pandas.count_na df "Hour" ;
   df <- (if (0 <? missing_hours)%nat then pandas.dropna_subset df "Hour" else Ok df) ;
   df <- pandas.assign_result df "Hour" hour_cell ;
   _ <- pandas.require df "Date" ;
   df <- pandas.assign_result df "Date" date_cell ;
   let df := pandas.assign df "timestamp" timestamp_text in
   df <- pandas.assign_result df "timestamp" timestamp_cell ;
   let df := pandas.assign df "city" (fun _ => OStr "Leeds") in
   let df := pandas.dropna df in
   pandas.select df ["city"; "footfall_location"; "timestamp"; "total_footfall"])%res.

(** What [clean_df] does to one dataframe, given the two preference
    lists of the settings. *)
Definition clean_frame (prefered_footfall_columns prefered_location_columns : list string)
    (df : DataFrame obj) : result (DataFrame obj) :=
  (let df := drop_unnamed df in
   df <- create_preferred_column (OFrame df) prefered_footfall_columns "total_footfall" ;
   df <- create_preferred_column df prefered_location_columns "footfall_location" ;
   clean_rows df)%res.

(** The strings a preference list of the settings yields to
    [for source in ...]; only a string can equal a column label. *)
Definition sources (prefered_columns : obj) : result (list string) :=
  (l <- iterate prefered_columns ;
   Ok (omap (fun o => match o with OStr s => Some s | _ => None end) l))%res.

Definition clean_df (data_bus : busref) (df_name : string) : M busref :=
  dfs <- getitem data_bus "dfs" ;
  df <- lift (subscript dfs df_name) ;
  df <- lift (as_frame df) ;
  prefered_footfall_columns <- getitem data_bus "prefered_footfall_columns" ;
  prefered_footfall_columns <- lift (sources prefered_footfall_columns) ;
  prefered_location_columns <- getitem data_bus "prefered_location_columns" ;
  prefered_location_columns <- lift (sources prefered_location_columns) ;
  df <- lift (clean_frame prefered_footfall_columns prefered_location_columns df) ;
  dfs <- getitem data_bus "dfs" ;
  dfs <- lift (items dfs) ;
  setitem data_bus "dfs" (ODict (dict_set dfs df_name (OFrame df))) ;;
  ret data_bus.

Definition clean_all_dfs (data_bus : busref) : M busref :=
  dfs <- getitem data_bus "dfs" ;
  dfs <- lift (items dfs) ;
  data_bus <- foldM (fun data_bus (entry : string * obj) => clean_df data_bus entry.1)
                dfs data_bus ;
  setitem data_bus "dfs_raw" (OBool false) ;;
  ret data_bus.

(** The frame [load_df_to_bigquery] uploads, from [data_bus['dfs']]. *)
Definition joined (dfs : obj) : result (DataFrame obj) :=
  (dfs <- items dfs ;
   df <- pandas.concat (map snd dfs) ;
   pandas.drop_duplicates df)%res.

Definition load_df_to_bigquery (data_bus : busref) : M busref :=
  bq_dataset <- getitem data_bus "bq_dataset" ;
  bq_dataset <- lift (as_str bq_dataset) ;
  bq_table <- getitem data_bus "bq_table" ;
  bq_table <- lift (as_str bq_table) ;
  let table_id := String.app bq_dataset (String.app "." bq_table) in
  dfs <- getitem data_bus "dfs" ;
  df <- lift (joined dfs) ;
  gcp_project <- getitem data_bus "gcp_project" ;
  schema <- getitem data_bus "schema" ;
  _ <- call "pandas_gbq.to_gbq" [OFrame df; OStr table_id; gcp_project; OStr "replace"; schema] ;
  ret data_bus.

Definition pipeline_stages : list task :=
  [ Task "Download data" 3 download_data;
    Task "Clean raw dataframes" 3 clean_all_dfs;
    Task "Load dataframes to bucket" 3 load_to_bucket;
    Task "Load processed dataframes to BigQuery" 3 load_df_to_bigquery ].

(** The data bus of the run is the settings document. *)
Definition load_settings (filename : string) : M busref :=
  doc <- call "json.load" [OStr filename] ;
  match doc with
  | ODict d => fun m => (Ok TheBus, {| bus := list_to_map d; world := world m |})
  | _ => raise TypeError
  end.

Definition run_pipeline (m : machine) : result unit * machine * list string :=
  match load_settings "footfall-leeds-settings.json" m with
  | (Raise e, m) => (Raise e, m, [])
  | (Ok data_bus, m) =>
      match run_stages pipeline_stages data_bus m [] with
      | (Ok _, m, log) => (Ok tt, m, log)
      | (Raise e, m, log) => (Raise e, m, log)
      end
  end.

End with_services.
End footfall_leeds.

(** ** footfall_york.py *)

Module footfall_york.
Section with_services.
Context `{Services}.
Local Open Scope flow_scope.

Definition download_data (data_bus : busref) : M busref :=
  api_url <- getitem data_bus "api_url" ;
  df <- call "pd.read_csv" [api_url] ;
  setitem data_bus "df" df ;;
  setitem data_bus "dfs_raw" (OBool true) ;;
  ret data_bus.

Definition load_to_bucket (data_bus : busref) : M busref :=
  dfs_raw <- getitem data_bus "dfs_raw" ;
  sink_folder <- (if equals_true dfs_raw
                  then getitem data_bus "gcp_bucket_folder_raw"
                  else getitem data_bus "gcp_bucket_folder_processed") ;
  _ <- call "storage.Client" [] ;
  gcp_bucket <- getitem data_bus "gcp_bucket" ;
  bucket <- call "get_bucket" [gcp_bucket] ;
  sink_folder <- lift (as_str sink_folder) ;
  csv_filename <- getitem data_bus "csv_filename" ;
  csv_filename <- lift (as_str csv_filename) ;
  df <- getitem data_bus "df" ;
  df <- lift (as_frame df) ;
  _ <- call "upload_from_string"
    [bucket; OStr (String.app sink_folder (String.app "/" csv_filename)); OFrame df;
     OStr "text/csv"] ;
  ret data_bus.

Definition new_label (c : string) : string :=
  if decide (c = "Date") then "timestamp"
  else if decide (c = "LocationName") then "footfall_location"
  else if decide (c = "InCount") then "total_footfall"
  else c.

Definition clean_frame (df : DataFrame obj) : result (DataFrame obj) :=
  (let df := pandas.assign df "city" (fun _ => OStr "York") in
   _ <- pandas.require df "Date" ;
   df <- pandas.assign_result df "Date"
           (fun r => pandas.to_datetime None (pandas.cell r "Date")) ;
   let df := pandas.rename new_label df in
   let df := pandas.fillna (OInt 0) df in
   pandas.select df ["city"; "footfall_location"; "timestamp"; "total_footfall"])%res.

Definition clean_df (data_bus : busref) : M busref :=
  df <- getitem data_bus "df" ;
  df <- lift (as_frame df) ;
  df <- lift (clean_frame df) ;
  setitem data_bus "df" (OFrame df) ;;
  setitem data_bus "dfs_raw" (OBool false) ;;
  ret data_bus.

Definition load_df_to_bigquery (data_bus : busref) : M busref :=
  bq_dataset <- getitem data_bus "bq_dataset" ;
  bq_dataset <- lift (as_str bq_dataset) ;
  bq_table <- getitem data_bus "bq_table" ;
  bq_table <- lift (as_str bq_table) ;
  let table_id := String.app bq_dataset (String.app "." bq_table) in
  df <- getitem data_bus "df" ;
  gcp_project <- getitem data_bus "gcp_project" ;
  schema <- getitem data_bus "schema" ;
  _ <- call "pandas_gbq.to_gbq" [df; OStr table_id; gcp_project; OStr "replace"; schema] ;
  ret data_bus.

Definition pipeline_stages : list task :=
  [ Task "Download data" 3 download_data;
    Task "Load dataframes to bucket" 0 load_to_bucket;
    Task "Clean raw dataframes" 0 clean_df;
    Task "Load dataframes to bucket" 0 load_to_bucket;
    Task "Load processed dataframes to BigQuery" 0 load_df_to_bigquery ].

Definition run_pipeline (m : machine) : result unit * machine * list string :=
  match footfall_leeds.load_settings "footfall_york_settings.json" m with
  | (Raise e, m) => (Raise e, m, [])
  | (Ok data_bus, m) =>
      match run_stages pipeline_stages data_bus m [] with
      | (Ok _, m, log) => (Ok tt, m, log)
      | (Raise e, m, log) => (Raise e, m, log)
      end
  end.

End with_services.
End footfall_york.

(** Every stage of the five flows. *)
Definition all_stages `{Services} : list task :=
  historic.pipeline_stages ++ forecast.pipeline_stages ++ holidays.pipeline_stages
  ++ footfall_leeds.pipeline_stages ++ footfall_york.pipeline_stages.

(** ** Statement vocabulary *)

(** The text [s] starts with the one or two digits [digits], followed by
    the end of the text, a full stop or a colon. *)
Definition hour_token (s digits : string) : Prop :=
  exists rest,
    s = String.app digits rest
    /\ (String.length digits = 1%nat \/ String.length digits = 2%nat)
    /\ Forall (fun c => footfall_leeds.is_digit c = true) (String.list_ascii_of_string digits)
    /\ (rest = EmptyString
        \/ exists c rest', rest = String c rest' /\ (c = "."%char \/ c = ":"%char)).

(** The same, a line feed that ends the text counting as its end. *)
Definition hour_token_nl (s digits : string) : Prop :=
  exists rest,
    s = String.app digits rest
    /\ (String.length digits = 1%nat \/ String.length digits = 2%nat)
    /\ Forall (fun c => footfall_leeds.is_digit c = true) (String.list_ascii_of_string digits)
    /\ (rest = EmptyString
        \/ rest = String "010"%char EmptyString
        \/ exists c rest', rest = String c rest' /\ (c = "."%char \/ c = ":"%char)).

(** The value a computation returns, [d] when it raises. *)
Definition value_or {A} (d : A) (r : result A) : A :=
  match r with
  | Ok a => a
  | Raise _ => d
  end.








(** A row with no missing cell under the labels [cols], the labels
    [timestamp] and [city] left aside (the cleaning overwrites both). *)
Definition kept (cols : list string) (r : gmap string obj) : bool :=
  pandas.complete
    (List.filter (fun c => negb (bool_decide (c ∈ ["timestamp"; "city"]))) cols) r.



(** What the spec asks of an optional metric [k] of the record [d]:
    [v] is [0.00] when the record has no such field and the source value
    otherwise.  In the historic response the source value sits under
    [1h]; in the forecast response it is the field itself. *)
Definition hourly_metric (d : list (string * obj)) (k : string) (v : obj) : Prop :=
  (dict_get d k = None /\ v = OFloat 0)
  \/ (exists x, dict_get d k = Some x /\ subscript x "1h" = Ok v).

Definition daily_metric (d : list (string * obj)) (k : string) (v : obj) : Prop :=
  (dict_get d k = None /\ v = OFloat 0) \/ dict_get d k = Some v.

(** ** An environment for examples

    Every external call succeeds and is recorded.  The settings document
    of a flow, the list of files of the Leeds site and a downloaded file
    are fixed; the settings name no bucket.  Floats print as their
    integer part; a text read as a time or as a number gives its
    length. *)

(** Tables and frames for examples. *)
Definition example_row (city : string) (date : Z) (rain : Z) : historic.row :=
  historic.Row city date (OFloat 12) (OInt 1012) (OInt 80) (OInt 40) (OFloat 3) (OInt rain)
    (OFloat 0).

Definition example_shard : list historic.row :=
  [example_row "X" 10 5; example_row "X" 11 6].

Definition example_store : list historic.row :=
  [example_row "X" 10 3; example_row "Y" 10 1].

Definition example_shard_again : list historic.row :=
  [example_row "X" 11 9; example_row "X" 10 8; example_row "X" 12 7].

Definition example_shard_other : list historic.row :=
  [example_row "Z" 10 4].

Definition example_store_repeated : list historic.row :=
  [example_row "Y" 10 1; example_row "Y" 10 2].

Definition example_frame : DataFrame obj :=
  {| columns := ["Date"; "Hour"; "B"; "C"; "Location"];
     rows := [ {[ "Date" := OStr "01/02/2023"; "Hour" := OStr "09:45"; "B" := OInt 7;
                  "C" := OInt 8; "Location" := OStr "Briggate" ]};
               {[ "Date" := OStr "01/02/2023"; "Hour" := ONaN; "B" := OInt 70;
                  "C" := OInt 80; "Location" := OStr "Briggate" ]};
               {[ "Date" := OStr "01/02/2023"; "Hour" := OInt 10; "B" := ONaN;
                  "C" := OInt 9; "Location" := OStr "Headrow" ]} ] |}.

Definition example_settings : obj :=
  ODict [("api_url", OStr "https://example.org/api");
         ("download_url", OStr "https://example.org/{{key}}/{{file_name}}");
         ("exclude_files", OList [OStr "old.csv"]);
         ("prefered_footfall_columns", OList [OStr "A"; OStr "B"; OStr "C"]);
         ("prefered_location_columns", OList [OStr "LocationName"; OStr "Location"]);
         ("bq_dataset", OStr "footfall"); ("bq_table", OStr "leeds");
         ("gcp_project", OStr "project"); ("schema", OList [])].

Definition example_file_list : obj :=
  ODict [("resources",
          ODict [("k1", ODict [("format", OStr "csv");
                               ("url", OStr "https://example.org/files/Monthly%20Data.csv")]);
                 ("k2", ODict [("format", OStr "pdf");
                               ("url", OStr "https://example.org/files/notes.pdf")])])].

Definition example_extern (name : string) (args : list obj) (w : list string)
    : result obj * list string :=
  (Ok (if decide (name = "json.load") then example_settings
       else if decide (name = "json.loads") then example_settings
       else if decide (name = "requests.get") then example_file_list
       else if decide (name = "pd.read_csv") then OFrame example_frame
       else OTime 0),
   w ++ [name]).

(** Two cleaned frames: the first row of the second repeats the first
    row of the first (its count written as a float), its second row has
    the key of the second row of the first and another count. *)
Definition example_clean_row (location : string) (timestamp : Z) (total_footfall : obj)
    : gmap string obj :=
  {[ "city" := OStr "Leeds"; "footfall_location" := OStr location;
     "timestamp" := OTime timestamp; "total_footfall" := total_footfall ]}.

Definition example_clean_frames : list (string * obj) :=
  [("a.csv", OFrame {| columns := ["city"; "footfall_location"; "timestamp"; "total_footfall"];
                       rows := [example_clean_row "Briggate" 100 (OInt 5);
                                example_clean_row "Briggate" 101 (OInt 7)] |});
   ("b.csv", OFrame {| columns := ["city"; "footfall_location"; "timestamp"; "total_footfall"];
                       rows := [example_clean_row "Briggate" 100 (OFloat 5);
                                example_clean_row "Briggate" 101 (OInt 8)] |})].

(** A historic record with snow and without rain, and a forecast record
    with rain and without snow. *)
Definition example_hour : obj :=
  ODict [("dt", OInt 1689400800);
         ("main", ODict [("temp", OFloat 290); ("pressure", OInt 1012);
                         ("humidity", OInt 80)]);
         ("clouds", ODict [("all", OInt 40)]);
         ("wind", ODict [("speed", OFloat 3)]);
         ("snow", ODict [("1h", OFloat (3 # 10))])].

Definition example_day : obj :=
  ODict [("dt", OInt 1689400800);
         ("temp", ODict [("min", OFloat 285); ("max", OFloat 295)]);
         ("pressure", OInt 1012); ("humidity", OInt 80); ("clouds", OInt 40);
         ("speed", OFloat 3); ("rain", OFloat (12 # 10))].

Definition example_services : Services := {|
  World := list string;
  extern := example_extern;
  float_sub := Qminus;
  float_round := fun q _ => q;
  float_of_string := fun _ => None;
  float_str := fun q => String.app (pretty (Qnum q / Zpos (Qden q))) ".0";
  time_str := fun t => pretty t;
  container_str := fun _ => "[]";
  strftime := fun t _ => pretty t;
  strptime := fun s _ => Some (Z.of_nat (String.length s));
  datetime_fromtimestamp := fun q => Qnum q / Zpos (Qden q);
  date_fromtimestamp := fun q => Qnum q / Zpos (Qden q);
  date_of := fun t => t;
  minus_days := fun t n => t - n;
  mktime := fun t => inject_Z t;
  year_of := fun t => t;
  int_of_string := fun s => Some (Z.of_nat (String.length s));
  response_json := fun r => Some r;
  to_datetime_scalar := fun _ v =>
    match v with
    | OStr s => Some (Z.of_nat (String.length s))
    | OTime t => Some t
    | _ => None
    end
|}.

(** ** Vocabulary for the stages *)

(** A computation that leaves the dictionary as it is. *)
Definition bus_stable `{Services} {A} (c : M A) : Prop :=
  forall m, bus (c m).2 = bus m.

(** A computation whose failure leaves the dictionary as it was. *)
Definition rolls_back `{Services} {A} (c : M A) : Prop :=
  forall m e m', c m = (Raise e, m') -> bus m' = bus m.

(** A computation that always returns. *)
Definition unfailing `{Services} {A} (c : M A) : Prop :=
  forall m, exists a m', c m = (Ok a, m').

(** A computation that always raises, and leaves the dictionary as it is. *)
Definition refuses `{Services} {A} (c : M A) : Prop :=
  forall m, exists e m', c m = (Raise e, m') /\ bus m' = bus m.

(** A computation that returns [a] whenever it returns. *)
Definition returns `{Services} {A} (a : A) (c : M A) : Prop :=
  forall m r m', c m = (Ok r, m') -> r = a.

(** A computation that changes nothing at all. *)
Definition reads_only `{Services} {A} (c : M A) : Prop :=
  forall m, (c m).2 = m.

(** A computation whose failure leaves everything as it was. *)
Definition undone `{Services} {A} (c : M A) : Prop :=
  forall m e m', c m = (Raise e, m') -> m' = m.

(** A computation that keeps a property of the dictionary, whether it
    returns or raises. *)
Definition preserves `{Services} {A} (P : gmap string obj -> Prop) (c : M A) : Prop :=
  forall m, P (bus m) -> P (bus (c m).2).

(** The data bus of the Leeds flow once one file is downloaded, and
    once two files are cleaned. *)
Definition example_raw_machine : @machine example_services :=
  @Machine example_services
    (list_to_map
       [("dfs", ODict [("a.csv", OFrame example_frame)]);
        ("prefered_footfall_columns", OList [OStr "A"; OStr "B"; OStr "C"]);
        ("prefered_location_columns", OList [OStr "LocationName"; OStr "Location"])])
    [].

Definition example_cleaned_machine : @machine example_services :=
  @Machine example_services (list_to_map [("dfs", ODict example_clean_frames)]) [].

(** The data bus of the historic flow before [get_data], with the
    response of an earlier run and no list of cities. *)
Definition example_weather_machine : @machine example_services :=
  @Machine example_services
    (list_to_map [("api_key", OStr "key"); ("date", OTime 19553);
                  ("api_response", OStr "stale")])
    [].



(** Three days of a holidays response: one for the whole country, one
    for Scotland only, and Saint Patrick's Day, listed for Northern
    Ireland. *)
Definition example_days : list obj :=
  [ODict [("date", OStr "2023-01-02"); ("localName", OStr "New Year's Day");
          ("name", OStr "New Year's Day"); ("counties", ONone)];
   ODict [("date", OStr "2023-01-03"); ("localName", OStr "2 January");
          ("name", OStr "2 January"); ("counties", OList [OStr "GB-SCT"])];
   ODict [("date", OStr "2023-03-17"); ("localName", OStr "St Patrick's Day");
          ("name", OStr "Saint Patrick's Day"); ("counties", OList [OStr "GB-NIR"])]].


(** The data bus of the Leeds flow before [download_data], and of the
    same flow when no file was found. *)
Definition example_settings_machine : @machine example_services :=
  @Machine example_services
    (match example_settings with
     | ODict d => list_to_map d
     | _ => ∅
     end)
    [].

Definition example_empty_machine : @machine example_services :=
  @Machine example_services
    (list_to_map [("bq_dataset", OStr "footfall"); ("bq_table", OStr "leeds");
                  ("dfs", ODict [])])
    [].

(** A frame of the York site and the data bus of the York flow after
    the cleaning. *)
Definition example_york_frame : DataFrame obj :=
  {| columns := ["Date"; "LocationName"; "InCount"];
     rows := [ {[ "Date" := OStr "01/02/2023"; "LocationName" := OStr "Parliament Street";
                  "InCount" := OInt 12 ]};
               {[ "Date" := OStr "01/02/2023"; "LocationName" := OStr "Coney Street";
                  "InCount" := ONaN ]} ] |}.

Definition example_york_machine : @machine example_services :=
  @Machine example_services
    (list_to_map
       [("df", OFrame {| columns := ["city"; "footfall_location"; "timestamp";
                                     "total_footfall"];
                         rows := [] |})])
    [].

(* ===================================================================== *)
(** * Part II: theorems *)
(* ===================================================================== *)

Section result_facts.

Lemma map_result_Forall2 {A B} (f : A -> result B) (xs : list A) (ys : list B) :
  map_result f xs = Ok ys <-> Forall2 (fun x y => f x = Ok y) xs ys.
Proof.
  revert ys. induction xs as [|x xs IH]; intros ys; cbn.
  - split; [intros [= <-]; constructor|by intros ->%Forall2_nil_inv_l].
  - split.
    + destruct (f x) as [y|e] eqn:Ef; cbn; [|done].
      destruct (map_result f xs) as [ys'|e] eqn:Em; cbn; [|done].
      intros [= <-]. constructor; [done|]. by apply IH.
    + intros (y & ys' & Hy & Hys & ->)%Forall2_cons_inv_l.
      rewrite Hy. cbn. apply IH in Hys. rewrite Hys. done.
Qed.

End result_facts.

Section merge_facts.
Import historic.

Lemma on_clause_key h l : on_clause h l <-> key h = key l.
Proof.
  unfold on_clause, key. split.
  - intros [-> ->]. reflexivity.
  - intros [= -> ->]. done.
Qed.

Lemma left_join_unmatched latest historic :
  map fst (filter latest_date_is_null (left_join historic latest))
  = filter (fun h => key h ∉ key <$> latest) historic.
Proof.
  induction historic as [|h hs IH]; [done|].
  cbn [left_join flat_map]. rewrite filter_app, map_app. fold (left_join hs latest).
  rewrite IH, filter_cons. clear IH.
  destruct (filter (on_clause h) latest) as [|m ms] eqn:E.
  - rewrite decide_True.
    + rewrite filter_cons, decide_True by done. rewrite filter_nil. done.
    + intros (l & Hk & Hl)%list_elem_of_fmap.
      assert (l ∈ filter (on_clause h) latest) as Hin.
      { apply list_elem_of_filter. split; [by apply on_clause_key|done]. }
      rewrite E in Hin. by apply not_elem_of_nil in Hin.
  - rewrite decide_False.
    + assert (filter latest_date_is_null (map (fun l => (h, Some l)) (m :: ms)) = []) as ->; [|done].
      generalize (m :: ms). intros l. induction l as [|x l IHl]; [done|].
      cbn [map]. rewrite filter_cons, decide_False by done. exact IHl.
    + intros Hn. apply Hn.
      assert (m ∈ filter (on_clause h) latest) as Hin by (rewrite E; left).
      apply list_elem_of_filter in Hin as [Hon Hin].
      apply list_elem_of_fmap. exists m. split; [by apply on_clause_key|done].
Qed.

Lemma merge_query_anti_join latest historic :
  merge_query latest historic
  = latest ++ filter (fun h => key h ∉ key <$> latest) historic.
Proof. unfold merge_query. by rewrite left_join_unmatched. Qed.

Lemma filter_nil_iff {A} (P : A -> Prop) `{!forall x, Decision (P x)} (l : list A) :
  Forall (fun x => ~ P x) l -> filter P l = [].
Proof.
  induction 1 as [|x l Hx _ IH]; [done|].
  by rewrite filter_cons, decide_False.
Qed.

Lemma filter_all {A} (P : A -> Prop) `{!forall x, Decision (P x)} (l : list A) :
  Forall P l -> filter P l = l.
Proof.
  induction 1 as [|x l Hx _ IH]; [done|].
  by rewrite filter_cons, decide_True, IH.
Qed.

Lemma records_at_absent k (t : table) : k ∉ key <$> t -> records_at k t = [].
Proof.
  intros Hk. apply filter_nil_iff, Forall_forall. intros r Hr <-.
  apply Hk, list_elem_of_fmap. by exists r.
Qed.

Lemma records_at_unique (t : table) r :
  unique_keys t -> r ∈ t -> records_at (key r) t = [r].
Proof.
  unfold unique_keys, records_at. induction t as [|x t IH]; intros Hnd Hr.
  - by apply elem_of_nil in Hr.
  - rewrite fmap_cons in Hnd. apply NoDup_cons in Hnd as [Hx Hnd].
    rewrite filter_cons. apply elem_of_cons in Hr as [->|Hr].
    + rewrite decide_True by done. f_equal. by apply records_at_absent.
    + rewrite decide_False; [by apply IH|].
      intros Hk. apply Hx. rewrite Hk. apply list_elem_of_fmap. by exists r.
Qed.

Lemma unique_keys_filter (P : row -> Prop) `{!forall x, Decision (P x)} (t : table) :
  unique_keys t -> unique_keys (filter P t).
Proof.
  unfold unique_keys. induction t as [|x t IH]; [done|].
  rewrite fmap_cons. intros [Hx Hnd]%NoDup_cons. rewrite filter_cons.
  destruct (decide (P x)); [|by apply IH].
  rewrite fmap_cons. apply NoDup_cons. split; [|by apply IH].
  intros (r & Hk & [_ Hr]%list_elem_of_filter)%list_elem_of_fmap.
  apply Hx, list_elem_of_fmap. by exists r.
Qed.

(** C2: running the merge a second time with the same shard changes
    nothing: the query over the shard and the already merged store
    returns that store again, row for row. *)
Theorem merge_query_idempotent (latest historic : table) :
  merge_query latest (merge_query latest historic) = merge_query latest historic.
Proof.
  rewrite !merge_query_anti_join. f_equal.
  rewrite filter_app. rewrite (filter_nil_iff _ latest).
  - cbn [app]. apply filter_all, Forall_forall.
    by intros h [Hh _]%list_elem_of_filter.
  - apply Forall_forall. intros r Hr Hn. apply Hn, list_elem_of_fmap. by exists r.
Qed.

(** C1 (as amended): when the shard has unique keys and the store had
    unique keys before, the merged store has unique keys; a key of the
    shard holds exactly the shard's record, a key absent from the shard
    holds exactly the record the store had, and every record of the
    result is one of these. *)
Theorem merge_query_one_record_per_key (latest historic : table) :
  unique_keys latest -> unique_keys historic ->
  unique_keys (merge_query latest historic)
  /\ (forall r, r ∈ latest -> records_at (key r) (merge_query latest historic) = [r])
  /\ (forall r, r ∈ historic -> key r ∉ key <$> latest ->
        records_at (key r) (merge_query latest historic) = [r])
  /\ (forall r, r ∈ merge_query latest historic ->
        r ∈ latest \/ (r ∈ historic /\ key r ∉ key <$> latest)).
Proof.
  intros HS HH. rewrite merge_query_anti_join.
  set (kept := filter (fun h => key h ∉ key <$> latest) historic).
  assert (unique_keys kept) as HK by (by apply unique_keys_filter).
  repeat split.
  - unfold unique_keys. rewrite fmap_app. apply NoDup_app. repeat split; [done| |done].
    intros k Hk (h & -> & [Hn _]%list_elem_of_filter)%list_elem_of_fmap. by apply Hn.
  - intros r Hr. unfold records_at. rewrite filter_app.
    fold (records_at (key r) latest). fold (records_at (key r) kept).
    rewrite records_at_unique by done. rewrite records_at_absent; [done|].
    intros (h & Hk & [Hn _]%list_elem_of_filter)%list_elem_of_fmap.
    apply Hn. rewrite <- Hk. apply list_elem_of_fmap. by exists r.
  - intros r Hr Hn. unfold records_at. rewrite filter_app.
    fold (records_at (key r) latest). fold (records_at (key r) kept).
    rewrite (records_at_absent _ latest) by done. cbn [app].
    apply records_at_unique; [done|]. by apply list_elem_of_filter.
  - intros r [Hr|[Hn Hr]%list_elem_of_filter]%elem_of_app; [by left|by right].
Qed.

End merge_facts.

Section leeds_column_facts.
Context `{Services}.
Import footfall_leeds pandas.

Lemma create_preferred_column_absent (d : DataFrame obj) prefered_columns new_column :
  (forall c, c ∈ prefered_columns -> c ∉ columns d) ->
  create_preferred_column (OFrame d) prefered_columns new_column = Ok (OBool false).
Proof.
  induction prefered_columns as [|c cs IH]; intros Hno; cbn; [done|].
  rewrite decide_False by (apply Hno; left). apply IH. intros c' Hc'. apply Hno. by right.
Qed.

Lemma create_preferred_column_found (d : DataFrame obj) skipped source rest new_column :
  (forall c, c ∈ skipped -> c ∉ columns d) ->
  source ∈ columns d ->
  create_preferred_column (OFrame d) (skipped ++ source :: rest) new_column
  = Ok (OFrame (assign d new_column (fun r => cell r source))).
Proof.
  induction skipped as [|c cs IH]; intros Hno Hin; cbn.
  - by rewrite decide_True.
  - rewrite decide_False by (apply Hno; left). apply IH; [|done].
    intros c' Hc'. apply Hno. by right.
Qed.

Lemma cell_insert_eq (r : gmap string obj) c v : cell (<[c := v]> r) c = v.
Proof. unfold cell. by rewrite lookup_insert_eq. Qed.

Lemma cell_insert_ne (r : gmap string obj) c c' v : c <> c' -> cell (<[c := v]> r) c' = cell r c'.
Proof. intros Hne. unfold cell. by rewrite lookup_insert_ne. Qed.

(** C3: the new column is a copy of the first candidate, in list
    order, that is a column of the dataframe; candidates that come
    later in the list play no part, whether present or not, and every
    other column is left as it was. *)
Theorem create_preferred_column_first_match
    (d : DataFrame obj) (skipped : list string) (source : string) (rest : list string)
    (new_column : string) :
  (forall c, c ∈ skipped -> c ∉ columns d) ->
  source ∈ columns d ->
  exists d',
    create_preferred_column (OFrame d) (skipped ++ source :: rest) new_column
    = Ok (OFrame d')
    /\ columns d' = add_label new_column (columns d)
    /\ length (rows d') = length (rows d)
    /\ forall i r, rows d !! i = Some r ->
         exists r', rows d' !! i = Some r'
           /\ cell r' new_column = cell r source
           /\ forall c, c <> new_column -> cell r' c = cell r c.
Proof.
  intros Hno Hin. eexists. split; [by apply create_preferred_column_found|].
  cbn. split; [done|]. split; [by rewrite length_map|].
  intros i r Hr. eexists. split.
  - rewrite list_lookup_fmap, Hr. done.
  - split; [apply cell_insert_eq|]. intros c Hc. by apply cell_insert_ne.
Qed.

Lemma clean_rows_not_frame (b : bool) : clean_rows (OBool b) = Raise TypeError.
Proof. done. Qed.

(** C4 (as amended): when no candidate is a column of the dataframe,
    [create_preferred_column] raises nothing and returns [False];
    [clean_df]'s treatment of the frame then ends in the
    [AttributeError] or [TypeError] of the next use of that value. *)
Theorem create_preferred_column_unresolved
    (d : DataFrame obj) (prefered_footfall_columns prefered_location_columns : list string) :
  (forall new_column,
      (forall c, c ∈ prefered_footfall_columns -> c ∉ columns d) ->
      create_preferred_column (OFrame d) prefered_footfall_columns new_column
      = Ok (OBool false))
  /\ ((forall c, c ∈ prefered_footfall_columns -> c ∉ columns (drop_unnamed d)) ->
      clean_frame prefered_footfall_columns prefered_location_columns d
      = Raise (match prefered_location_columns with
               | [] => TypeError
               | _ => AttributeError
               end))
  /\ (forall d',
      create_preferred_column (OFrame (drop_unnamed d)) prefered_footfall_columns
        "total_footfall" = Ok (OFrame d') ->
      (forall c, c ∈ prefered_location_columns -> c ∉ columns d') ->
      clean_frame prefered_footfall_columns prefered_location_columns d
      = Raise TypeError).
Proof.
  split; [|split].
  - intros new_column Hno. by apply create_preferred_column_absent.
  - intros Hno. unfold clean_frame. cbn zeta.
    rewrite create_preferred_column_absent by done. cbn [rbind].
    by destruct prefered_location_columns.
  - intros d' Hd' Hno. unfold clean_frame. cbn zeta. rewrite Hd'. cbn [rbind].
    rewrite create_preferred_column_absent by done. done.
Qed.

End leeds_column_facts.

Section clean_hours_facts.
Context `{Services}.
Import footfall_leeds.

Lemma hour_end_spec rest :
  hour_end rest = true <->
  rest = EmptyString
  \/ rest = String "010"%char EmptyString
  \/ exists c rest', rest = String c rest' /\ (c = "."%char \/ c = ":"%char).
Proof.
  destruct rest as [|c rest']; cbn.
  - split; [by left|done].
  - rewrite !orb_true_iff, andb_true_iff, !bool_decide_eq_true. split.
    + intros [[->| ->]|[-> ->]]; [right; right; eauto..|by right; left].
    + intros [?|[[= -> ->]|(c' & r' & [= -> ->] & [->| ->])]]; [done|by right|by left; left|by left; right].
Qed.

Lemma hour_end_digit c rest : is_digit c = true -> hour_end (String c rest) = false.
Proof.
  intros Hc. cbn. apply not_true_is_false.
  rewrite !orb_true_iff, andb_true_iff, !bool_decide_eq_true.
  intros [[->| ->]|[-> _]]; done.
Qed.

Lemma search_hour_complete s digits :
  hour_token_nl s digits -> search_hour s = Some digits.
Proof.
  intros (rest & -> & Hlen & Hdig & Hrest).
  apply hour_end_spec in Hrest.
  destruct digits as [|a [|b [|c digits]]]; cbn in Hlen; try (destruct Hlen; discriminate).
  - cbn in Hdig. apply Forall_cons in Hdig as [Ha _].
    change (search_hour (String a rest) = Some (String a EmptyString)).
    cbn. rewrite Ha.
    destruct rest as [|b rest']; [done|].
    destruct (is_digit b) eqn:Hb.
    + by rewrite hour_end_digit in Hrest.
    + cbn [andb]. by rewrite Hrest.
  - cbn in Hdig. apply Forall_cons in Hdig as [Ha [Hb _]%Forall_cons].
    change (search_hour (String a (String b rest)) = Some (String a (String b EmptyString))).
    cbn. by rewrite Ha, Hb, Hrest.
Qed.

Lemma search_hour_sound s digits :
  search_hour s = Some digits -> hour_token_nl s digits.
Proof.
  destruct s as [|a rest]; cbn; [done|].
  destruct (is_digit a) eqn:Ha; [|done].
  destruct rest as [|b rest'].
  - intros [= <-]. exists EmptyString. cbn. repeat split; [by left|by repeat constructor|by left].
  - destruct (is_digit b && hour_end rest') eqn:Hb.
    + apply andb_true_iff in Hb as [Hb Hend]. intros [= <-]. exists rest'. cbn.
      repeat split; [by right|by repeat constructor|by apply hour_end_spec].
    + destruct (hour_end (String b rest')) eqn:Hend; [|done].
      intros [= <-]. exists (String b rest'). cbn.
      repeat split; [by left|by repeat constructor|by apply hour_end_spec].
Qed.

(** C5 (as amended): when the text of the token starts with one or two
    digits followed by the end of the text, a line feed that ends the
    text, a full stop or a colon, the result is those digits padded
    with a zero to two characters and followed by [:00:00]; for every
    other token the call raises [AttributeError]. *)
Theorem clean_hours_leading_digits (x : obj) :
  (forall digits, hour_token_nl (py_str x) digits ->
     clean_hours x = Ok (String.app (rjust 2 "0"%char digits) ":00:00"))
  /\ ((forall digits, ~ hour_token_nl (py_str x) digits) ->
      clean_hours x = Raise AttributeError).
Proof.
  unfold clean_hours. split.
  - intros digits Hd. by rewrite (search_hour_complete _ _ Hd).
  - intros Hno. destruct (search_hour (py_str x)) as [digits|] eqn:E; [|done].
    by apply search_hour_sound, Hno in E.
Qed.

End clean_hours_facts.

Section merge_examples.
Import historic.

(** The merge of the spec's example: the shard's value 5 replaces the
    store's value 3 under the key they share, once. *)
Example merge_precedence :
  records_at ("X", 10) (merge_query example_shard example_store) = [example_row "X" 10 5].
Proof. vm_compute. reflexivity. Qed.

Lemma merge_query_one_record_per_key_witness :
  unique_keys example_shard /\ unique_keys example_store
  /\ unique_keys (merge_query example_shard example_store)
  /\ (forall r, r ∈ example_shard ->
        records_at (key r) (merge_query example_shard example_store) = [r])
  /\ (forall r, r ∈ example_store -> key r ∉ key <$> example_shard ->
        records_at (key r) (merge_query example_shard example_store) = [r])
  /\ (forall r, r ∈ merge_query example_shard example_store ->
        r ∈ example_shard \/ (r ∈ example_store /\ key r ∉ key <$> example_shard)).
Proof.
  assert (unique_keys example_shard) as HS.
  { apply (bool_decide_unpack _). vm_compute. exact I. }
  assert (unique_keys example_store) as HH.
  { apply (bool_decide_unpack _). vm_compute. exact I. }
  split; [exact HS|]. split; [exact HH|].
  exact (merge_query_one_record_per_key example_shard example_store HS HH).
Defined.

(** C1 as stated fails: the shard has unique keys, yet the merged store
    holds two records under a key the store already held twice. *)
Lemma merge_query_keeps_repeated_store_key :
  unique_keys example_shard
  /\ records_at ("Y", 10) (merge_query example_shard example_store_repeated)
     = [example_row "Y" 10 1; example_row "Y" 10 2]
  /\ ~ unique_keys (merge_query example_shard example_store_repeated).
Proof.
  split; [apply (bool_decide_unpack _); vm_compute; exact I|].
  split; [vm_compute; reflexivity|].
  apply (bool_decide_unpack _). vm_compute. exact I.
Qed.

End merge_examples.

Section leeds_examples.
Import footfall_leeds pandas.

(** The spec's two examples of preference resolution: with only [B] of
    [A, B, C] present, [B] is copied; with [C] and [B] both present and
    [C] listed first, [C] is copied. *)
Example preferred_column_only_second :
  (d <- create_preferred_column (OFrame example_frame) ["A"; "B"] "total_footfall" ;
   d <- as_frame d ;
   Ok (map (fun r => cell r "total_footfall") (rows d)))%res
  = Ok [OInt 7; OInt 70; ONaN].
Proof. vm_compute. reflexivity. Qed.

Example preferred_column_first_wins :
  (d <- create_preferred_column (OFrame example_frame) ["C"; "B"] "total_footfall" ;
   d <- as_frame d ;
   Ok (map (fun r => cell r "total_footfall") (rows d)))%res
  = Ok [OInt 8; OInt 80; OInt 9].
Proof. vm_compute. reflexivity. Qed.

Lemma create_preferred_column_first_match_witness :
  (forall c, c ∈ ["A"] -> c ∉ columns example_frame)
  /\ "B" ∈ columns example_frame
  /\ exists d',
      create_preferred_column (OFrame example_frame) (["A"] ++ "B" :: ["C"]) "total_footfall"
      = Ok (OFrame d')
      /\ columns d' = add_label "total_footfall" (columns example_frame)
      /\ length (rows d') = length (rows example_frame)
      /\ forall i r, rows example_frame !! i = Some r ->
           exists r', rows d' !! i = Some r'
             /\ cell r' "total_footfall" = cell r "B"
             /\ forall c, c <> "total_footfall" -> cell r' c = cell r c.
Proof.
  assert (forall c, c ∈ ["A"] -> c ∉ columns example_frame) as Hno.
  { intros c ->%list_elem_of_singleton. apply (bool_decide_unpack _). vm_compute. exact I. }
  assert ("B" ∈ columns example_frame) as Hin.
  { apply (bool_decide_unpack _). vm_compute. exact I. }
  split; [exact Hno|]. split; [exact Hin|].
  exact (create_preferred_column_first_match example_frame ["A"] "B" ["C"]
           "total_footfall" Hno Hin).
Defined.

(** C4 as stated fails: with no candidate among the columns the call
    returns [False] instead of raising, and the cleaning of the frame
    ends in an [AttributeError]. *)
Lemma create_preferred_column_returns_false :
  create_preferred_column (OFrame example_frame) ["X"; "Y"] "total_footfall"
  = Ok (OBool false)
  /\ @clean_frame example_services ["X"; "Y"] ["Location"] example_frame
     = Raise AttributeError.
Proof. split; vm_compute; reflexivity. Qed.

Lemma create_preferred_column_unresolved_witness :
  (forall c, c ∈ ["X"; "Y"] -> c ∉ columns example_frame)
  /\ create_preferred_column (OFrame example_frame) ["X"; "Y"] "total_footfall"
     = Ok (OBool false)
  /\ (forall c, c ∈ ["X"; "Y"] -> c ∉ columns (drop_unnamed example_frame))
  /\ @clean_frame example_services ["X"; "Y"] ["Location"] example_frame
     = Raise AttributeError.
Proof.
  assert (forall c, c ∈ ["X"; "Y"] -> c ∉ columns example_frame) as Hno.
  { intros c [->|[->|[]%elem_of_nil]%elem_of_cons]%elem_of_cons;
      apply (bool_decide_unpack _); vm_compute; exact I. }
  assert (forall c, c ∈ ["X"; "Y"] -> c ∉ columns (drop_unnamed example_frame)) as Hno'.
  { intros c [->|[->|[]%elem_of_nil]%elem_of_cons]%elem_of_cons;
      apply (bool_decide_unpack _); vm_compute; exact I. }
  pose proof (@create_preferred_column_unresolved example_services example_frame
                ["X"; "Y"] ["Location"]) as (H1 & H2 & _).
  split; [exact Hno|]. split; [exact (H1 "total_footfall" Hno)|].
  split; [exact Hno'|]. exact (H2 Hno').
Defined.

(** The spec's examples of hour canonicalisation. *)
Example clean_hours_examples :
  @clean_hours example_services (OStr "9") = Ok "09:00:00"
  /\ @clean_hours example_services (OStr "09") = Ok "09:00:00"
  /\ @clean_hours example_services (OStr "09:45") = Ok "09:00:00"
  /\ @clean_hours example_services (OInt 9) = Ok "09:00:00"
  /\ @clean_hours example_services (OFloat 9) = Ok "09:00:00"
  /\ @clean_hours example_services (OStr "123") = Raise AttributeError
  /\ @clean_hours example_services (OStr "abc") = Raise AttributeError.
Proof. repeat split; vm_compute; reflexivity. Qed.

(** C5 as stated fails: the text [9] followed by a line feed is no
    one-or-two-digit start followed by the end of the text, a full stop
    or a colon, yet the call returns [09:00:00]. *)
Lemma clean_hours_accepts_final_line_feed :
  (forall digits, ~ hour_token (String "9"%char (String "010"%char EmptyString)) digits)
  /\ @clean_hours example_services (OStr (String "9"%char (String "010"%char EmptyString)))
     = Ok "09:00:00".
Proof.
  split; [|vm_compute; reflexivity].
  intros digits (rest & Heq & Hlen & Hdig & Hrest).
  destruct digits as [|a [|b [|c digits]]]; cbn in Hlen; try (destruct Hlen; discriminate);
    cbv beta iota fix delta [String.append] in Heq.
  - injection Heq as <- <-.
    destruct Hrest as [|(c & r & [= <- <-] & [|])]; discriminate.
  - injection Heq as <- <- <-. cbn in Hdig.
    apply Forall_cons in Hdig as [_ [Hb _]%Forall_cons]. discriminate.
Qed.

Lemma clean_hours_leading_digits_witness :
  hour_token_nl "09:45" "09"
  /\ @clean_hours example_services (OStr "09:45") = Ok "09:00:00"
  /\ (forall digits, ~ hour_token_nl "abc" digits)
  /\ @clean_hours example_services (OStr "abc") = Raise AttributeError.
Proof.
  assert (hour_token_nl "09:45" "09") as Hyes.
  { exists ":45". repeat split; [by right|by repeat constructor|].
    right; right. exists ":"%char, "45". split; [done|by right]. }
  assert (forall digits, ~ hour_token_nl "abc" digits) as Hno.
  { intros digits (rest & Heq & Hlen & Hdig & _).
    destruct digits as [|a digits]; cbn in Hlen; [destruct Hlen; discriminate|].
    cbv beta iota fix delta [String.append] in Heq. fold String.append in Heq.
    injection Heq as <- _. cbn in Hdig. apply Forall_cons in Hdig as [Ha _]. discriminate. }
  pose proof (@clean_hours_leading_digits example_services (OStr "09:45")) as [H1 _].
  pose proof (@clean_hours_leading_digits example_services (OStr "abc")) as [_ H2].
  split; [exact Hyes|]. split; [exact (H1 "09" Hyes)|]. split; [exact Hno|]. exact (H2 Hno).
Defined.

End leeds_examples.

Section weather_facts.
Context `{Services}.

Lemma dict_get_set_eq d k v : dict_get (dict_set d k v) k = Some v.
Proof.
  induction d as [|[k' v'] d IH]; cbn.
  - by rewrite decide_True.
  - destruct (decide (k' = k)) as [->|Hne]; cbn.
    + by rewrite decide_True.
    + by rewrite decide_False.
Qed.

Lemma dict_get_set_ne d k k' v : k <> k' -> dict_get (dict_set d k v) k' = dict_get d k'.
Proof.
  intros Hne. induction d as [|[k0 v0] d IH]; cbn.
  - by rewrite decide_False.
  - destruct (decide (k0 = k)) as [->|Hne0]; cbn.
    + by rewrite !decide_False.
    + destruct (decide (k0 = k')); [done|exact IH].
Qed.

Lemma contains_dict d k : contains (ODict d) k = Ok (bool_decide (is_Some (dict_get d k))).
Proof. done. Qed.

Lemma base_row_dict_historic city hour row :
  historic.base_row city hour = Ok row -> exists d, hour = ODict d.
Proof. destruct hour; try discriminate. eauto. Qed.

Lemma base_row_dict_forecast city day row :
  forecast.base_row city day = Ok row -> exists d, day = ODict d.
Proof. destruct day; try discriminate. eauto. Qed.

Lemma hour_row_metrics city d row rain snow :
  historic.base_row city (ODict d) = Ok row ->
  hourly_metric d "rain" rain -> hourly_metric d "snow" snow ->
  historic.hour_row city (ODict d)
  = Ok (dict_set (dict_set row "rain" rain) "snow" snow).
Proof.
  intros Hrow Hrain Hsnow. unfold historic.hour_row. rewrite Hrow. cbn [rbind].
  rewrite !contains_dict. cbn [rbind].
  destruct Hrain as [[Hr ->]|(x & Hr & Hx)].
  - rewrite bool_decide_eq_false_2 by (rewrite Hr; by intros [? ?]). cbn [rbind].
    destruct Hsnow as [[Hs ->]|(y & Hs & Hy)].
    + by rewrite bool_decide_eq_false_2 by (rewrite Hs; by intros [? ?]).
    + rewrite bool_decide_eq_true_2 by (rewrite Hs; eauto).
      unfold subscript at 1. rewrite Hs. cbn [rbind]. by rewrite Hy.
  - rewrite bool_decide_eq_true_2 by (rewrite Hr; eauto).
    unfold subscript at 1. rewrite Hr. cbn [rbind]. rewrite Hx. cbn [rbind].
    destruct Hsnow as [[Hs ->]|(y & Hs & Hy)].
    + by rewrite bool_decide_eq_false_2 by (rewrite Hs; by intros [? ?]).
    + rewrite bool_decide_eq_true_2 by (rewrite Hs; eauto).
      unfold subscript at 1. rewrite Hs. cbn [rbind]. by rewrite Hy.
Qed.

Lemma day_row_metrics city d row rain snow :
  forecast.base_row city (ODict d) = Ok row ->
  daily_metric d "rain" rain -> daily_metric d "snow" snow ->
  forecast.day_row city (ODict d)
  = Ok (dict_set (dict_set row "rain" rain) "snow" snow).
Proof.
  intros Hrow Hrain Hsnow. unfold forecast.day_row. rewrite Hrow. cbn [rbind].
  rewrite !contains_dict. cbn [rbind].
  destruct Hrain as [[Hr ->]|Hr].
  - rewrite bool_decide_eq_false_2 by (rewrite Hr; by intros [? ?]). cbn [rbind].
    destruct Hsnow as [[Hs ->]|Hs].
    + by rewrite bool_decide_eq_false_2 by (rewrite Hs; by intros [? ?]).
    + rewrite bool_decide_eq_true_2 by (rewrite Hs; eauto).
      unfold subscript. by rewrite Hs.
  - rewrite bool_decide_eq_true_2 by (rewrite Hr; eauto).
    unfold subscript at 1. rewrite Hr. cbn [rbind].
    destruct Hsnow as [[Hs ->]|Hs].
    + by rewrite bool_decide_eq_false_2 by (rewrite Hs; by intros [? ?]).
    + rewrite bool_decide_eq_true_2 by (rewrite Hs; eauto).
      unfold subscript. by rewrite Hs.
Qed.

(** C7: for a record of the historic response and for one of the
    forecast response, once the fields every record has are read, the
    row is produced and holds under [rain] and under [snow] the float
    [0.00] when the record has no such field, and the value the record
    gives otherwise; the default is no missing marker, and no other field
    of the row is touched. *)
Theorem optional_metric_default (city : string) (record : obj)
    (row : list (string * obj)) :
  (historic.base_row city record = Ok row ->
   exists d, record = ODict d
     /\ forall rain snow,
          hourly_metric d "rain" rain -> hourly_metric d "snow" snow ->
          exists row',
            historic.hour_row city record = Ok row'
            /\ dict_get row' "rain" = Some rain
            /\ dict_get row' "snow" = Some snow
            /\ forall k, k <> "rain" -> k <> "snow" -> dict_get row' k = dict_get row k)
  /\ (forecast.base_row city record = Ok row ->
      exists d, record = ODict d
        /\ forall rain snow,
             daily_metric d "rain" rain -> daily_metric d "snow" snow ->
             exists row',
               forecast.day_row city record = Ok row'
               /\ dict_get row' "rain" = Some rain
               /\ dict_get row' "snow" = Some snow
               /\ forall k, k <> "rain" -> k <> "snow" -> dict_get row' k = dict_get row k)
  /\ pandas.isna (OFloat 0) = false.
Proof.
  split; [|split; [|done]].
  - intros Hrow. destruct (base_row_dict_historic _ _ _ Hrow) as [d ->].
    exists d. split; [done|]. intros rain snow Hrain Hsnow.
    eexists. split; [by apply hour_row_metrics|].
    split; [|split].
    + by rewrite dict_get_set_ne, dict_get_set_eq.
    + by rewrite dict_get_set_eq.
    + intros k Hr Hs. by rewrite !dict_get_set_ne.
  - intros Hrow. destruct (base_row_dict_forecast _ _ _ Hrow) as [d ->].
    exists d. split; [done|]. intros rain snow Hrain Hsnow.
    eexists. split; [by apply day_row_metrics|].
    split; [|split].
    + by rewrite dict_get_set_ne, dict_get_set_eq.
    + by rewrite dict_get_set_eq.
    + intros k Hr Hs. by rewrite !dict_get_set_ne.
Qed.

End weather_facts.

Section weather_examples.

Lemma optional_metric_default_witness :
  exists row,
    @historic.base_row example_services "Leeds" example_hour = Ok row
    /\ exists row',
         @historic.hour_row example_services "Leeds" example_hour = Ok row'
         /\ dict_get row' "rain" = Some (OFloat 0)
         /\ dict_get row' "snow" = Some (OFloat (3 # 10))
         /\ forall k, k <> "rain" -> k <> "snow" -> dict_get row' k = dict_get row k.
Proof.
  eexists. split; [vm_compute; reflexivity|].
  pose proof (@optional_metric_default example_services "Leeds" example_hour) as Hthm.
  edestruct Hthm as [Hhist _].
  destruct (Hhist ltac:(vm_compute; reflexivity)) as (d & Hd & Hrows).
  injection Hd as <-.
  apply Hrows.
  - left. split; reflexivity.
  - right. eexists. split; reflexivity.
Defined.

(** The forecast record of the example: its rain is carried through and
    its snow is [0.00]. *)
Example day_row_example :
  (row <- @forecast.day_row example_services "Leeds" example_day ;
   Ok (dict_get row "rain", dict_get row "snow"))%res
  = Ok (Some (OFloat (12 # 10)), Some (OFloat 0)).
Proof. vm_compute. reflexivity. Qed.

End weather_examples.

Section executor_facts.
Context `{Services}.

Lemma run_attempts_raise n t data_bus m log e m' log' :
  run_attempts n t data_bus m log = (Raise e, m', log') ->
  log' = log ++ replicate (S n) (task_name t).
Proof.
  revert m log. induction n as [|n IH]; intros m log; cbn.
  - destruct (fn t data_bus m) as [[r|e0] m0]; intros [= <- <- <-] || intros [=]; done.
  - destruct (fn t data_bus m) as [[r|e0] m0]; [intros [=]|].
    intros Hrun. apply IH in Hrun. rewrite Hrun, <- app_assoc. done.
Qed.

Lemma run_attempts_log n t data_bus m log :
  log `prefix_of` (run_attempts n t data_bus m log).2.
Proof.
  revert m log. induction n as [|n IH]; intros m log; cbn.
  - destruct (fn t data_bus m) as [[r|e0] m0]; cbn; by apply prefix_app_r.
  - destruct (fn t data_bus m) as [[r|e0] m0]; cbn; [by apply prefix_app_r|].
    etrans; [|apply IH]. by apply prefix_app_r.
Qed.

Lemma run_stages_log stages data_bus m log :
  log `prefix_of` (run_stages stages data_bus m log).2.
Proof.
  revert data_bus m log. induction stages as [|t ts IH]; intros data_bus m log; cbn; [done|].
  pose proof (run_attempts_log (retries t) t data_bus m log) as Hp.
  unfold run_task. destruct (run_attempts _ t data_bus m log) as [[[b|e] m1] log1]; cbn in *.
  - etrans; [exact Hp|apply IH].
  - exact Hp.
Qed.

Lemma run_stages_app before after data_bus m log :
  run_stages (before ++ after) data_bus m log
  = match run_stages before data_bus m log with
    | (Ok data_bus', m', log') => run_stages after data_bus' m' log'
    | (Raise e, m', log') => (Raise e, m', log')
    end.
Proof.
  revert data_bus m log. induction before as [|t ts IH]; intros data_bus m log; cbn; [done|].
  destruct (run_task t data_bus m log) as [[[b|e] m1] log1]; [apply IH|done].
Qed.

(** C8: when the stages before stage [i] have run and the call of stage
    [i] raises (its retries, if any, used up), the run of the whole list
    ends there with that exception: the machine is the one stage [i]
    left, which it reached from the one the earlier stages left; the log
    of runs holds, after the runs of the earlier stages, the attempts of
    stage [i] and nothing of a later stage; and [run_pipeline] of the
    Leeds and of the historic flow hands the exception to its caller. *)
Theorem run_stages_fail_fast
    (before : list task) (stage : task) (after : list task)
    (data_bus data_bus_i : busref) (m m_i m' : machine)
    (log log_i log' : list string) (e : exn) :
  run_stages before data_bus m log = (Ok data_bus_i, m_i, log_i) ->
  run_task stage data_bus_i m_i log_i = (Raise e, m', log') ->
  run_stages (before ++ stage :: after) data_bus m log = (Raise e, m', log')
  /\ log' = log_i ++ replicate (S (retries stage)) (task_name stage)
  /\ log `prefix_of` log_i
  /\ (forall m0,
        footfall_leeds.pipeline_stages = before ++ stage :: after ->
        footfall_leeds.load_settings "footfall-leeds-settings.json" m0 = (Ok data_bus, m) ->
        log = [] ->
        footfall_leeds.run_pipeline m0 = (Raise e, m', log'))
  /\ (forall date m0 m1,
        historic.pipeline_stages = before ++ stage :: after ->
        run_task (Task api_functions.init_task 0
                    (fun _ => api_functions.init "historic-settings")) NoBus m0 []
        = (Ok data_bus, m1, log) ->
        historic.set_date date data_bus m1 = (Ok tt, m) ->
        historic.run_pipeline date m0 = (Raise e, m', log')).
Proof.
  intros Hbefore Hstage.
  assert (run_stages (before ++ stage :: after) data_bus m log = (Raise e, m', log')) as Hrun.
  { rewrite run_stages_app, Hbefore. cbn. by rewrite Hstage. }
  split; [exact Hrun|]. split; [by eapply run_attempts_raise|]. split.
  { pose proof (run_stages_log before data_bus m log) as Hp. by rewrite Hbefore in Hp. }
  split.
  - intros m0 Hstages Hload ->. unfold footfall_leeds.run_pipeline.
    rewrite Hload, Hstages, Hrun. done.
  - intros date m0 m1 Hstages Hinit Hdate. unfold historic.run_pipeline.
    rewrite Hinit, Hdate, Hstages, Hrun. done.
Qed.

End executor_facts.

Section data_bus_facts.
Context `{Services}.

































End data_bus_facts.

Section executor_examples.
Import footfall_leeds.

(** A run of the Leeds flow in the example environment: the download
    and the cleaning succeed, the upload to the bucket fails four times
    on the folder the settings lack, the load to the warehouse is never
    run. *)
Lemma run_stages_fail_fast_witness :
  exists (m m_i m' : @machine example_services) (log_i log' : list string),
    @load_settings example_services "footfall-leeds-settings.json"
      (@Machine example_services ∅ [])
    = (Ok TheBus, m)
    /\ run_stages [Task "Download data" 3 download_data;
                   Task "Clean raw dataframes" 3 clean_all_dfs] TheBus m []
       = (Ok TheBus, m_i, log_i)
    /\ run_task (Task "Load dataframes to bucket" 3 load_to_bucket) TheBus m_i log_i
       = (Raise (KeyError "gcp_bucket_folder_processed"), m', log')
    /\ log' = ["Download data"; "Clean raw dataframes"; "Load dataframes to bucket";
               "Load dataframes to bucket"; "Load dataframes to bucket";
               "Load dataframes to bucket"]
    /\ run_pipeline (@Machine example_services ∅ [])
       = (Raise (KeyError "gcp_bucket_folder_processed"), m', log').
Proof.
  evar (m : @machine example_services).
  assert (@load_settings example_services "footfall-leeds-settings.json"
            (@Machine example_services ∅ []) = (Ok TheBus, m)) as Hload
    by (subst m; vm_compute; reflexivity).
  evar (m_i : @machine example_services). evar (log_i : list string).
  assert (run_stages [Task "Download data" 3 download_data;
                      Task "Clean raw dataframes" 3 clean_all_dfs] TheBus m []
          = (Ok TheBus, m_i, log_i)) as Hbefore
    by (subst m m_i log_i; vm_compute; reflexivity).
  evar (m' : @machine example_services). evar (log' : list string).
  assert (run_task (Task "Load dataframes to bucket" 3 load_to_bucket) TheBus m_i log_i
          = (Raise (KeyError "gcp_bucket_folder_processed"), m', log')) as Hstage
    by (subst m_i log_i m' log'; vm_compute; reflexivity).
  destruct (run_stages_fail_fast
              [Task "Download data" 3 download_data;
               Task "Clean raw dataframes" 3 clean_all_dfs]
              (Task "Load dataframes to bucket" 3 load_to_bucket)
              [Task "Load processed dataframes to BigQuery" 3 load_df_to_bigquery]
              TheBus TheBus m m_i m' [] log_i log' _ Hbefore Hstage)
    as (_ & Hlog & _ & Hleeds & _).
  exists m, m_i, m', log_i, log'.
  split; [exact Hload|]. split; [exact Hbefore|]. split; [exact Hstage|].
  split; [exact Hlog|]. exact (Hleeds _ eq_refl Hload eq_refl).
Defined.

End executor_examples.

Section duplicate_facts.
Import pandas.














End duplicate_facts.

Section joined_facts.
Import pandas footfall_leeds.



End joined_facts.

Section joined_examples.
Import pandas footfall_leeds.

(** The repeated row is uploaded once; the two rows with the same
    location and timestamp and the counts 7 and 8 are both uploaded. *)
Example joined_example :
  (out <- joined (ODict example_clean_frames) ;
   Ok (map (fun r => (cell r "timestamp", cell r "total_footfall")) (rows out)))%res
  = Ok [(OTime 100, OInt 5); (OTime 101, OInt 7); (OTime 101, OInt 8)].
Proof. vm_compute. reflexivity. Qed.


End joined_examples.

Section frame_facts.
Import pandas.

Lemma elem_of_add_label c x cols : c ∈ add_label x cols <-> c = x \/ c ∈ cols.
Proof.
  unfold add_label. destruct (decide (x ∈ cols)) as [Hx|Hx].
  - split; [by right|]. by intros [->|Hc].
  - rewrite elem_of_app, list_elem_of_singleton. tauto.
Qed.

Lemma add_label_present x cols : x ∈ cols -> add_label x cols = cols.
Proof. intros Hx. unfold add_label. by rewrite decide_True. Qed.

Lemma cell_project cols r c : c ∈ cols -> cell (project cols r) c = cell r c.
Proof.
  intros Hc. unfold cell, project. f_equal.
  destruct (r !! c) as [v|] eqn:Hr.
  - by apply map_lookup_filter_Some_2.
  - apply map_lookup_filter_None. by left.
Qed.












End frame_facts.

Section clean_rows_facts.
Context `{Services}.
Import pandas footfall_leeds.







End clean_rows_facts.

Section clean_frame_facts.
Context `{Services}.
Import pandas footfall_leeds.




End clean_frame_facts.

Section clean_frame_theorem.
Context `{Services}.
Import pandas footfall_leeds.



End clean_frame_theorem.

Section clean_frame_examples.
Import pandas footfall_leeds.

(** The example frame has three rows: the first has every cell, the
    second has no hour, the third has no footfall.  Only the first is in
    the cleaned frame, and nothing is raised. *)
Example clean_frame_example :
  (out <- @clean_frame example_services ["A"; "B"; "C"] ["LocationName"; "Location"]
            example_frame ;
   Ok (columns out,
       map (fun r => map (cell r) (columns out)) (rows out)))%res
  = Ok (["city"; "footfall_location"; "timestamp"; "total_footfall"],
        [[OStr "Leeds"; OStr "Briggate"; OTime 11; OInt 7]]).
Proof. vm_compute. reflexivity. Qed.


End clean_frame_examples.

(* ===================================================================== *)
(** * Further properties of the code *)
(* ===================================================================== *)

Section merge_more.
Import historic.

Lemma filter_filter_and {A} (P Q : A -> Prop)
    `{!forall x, Decision (P x)} `{!forall x, Decision (Q x)} (l : list A) :
  filter P (filter Q l) = filter (fun x => P x /\ Q x) l.
Proof.
  induction l as [|x l IH]; [done|].
  rewrite (filter_cons Q), (filter_cons (fun x => P x /\ Q x)).
  destruct (decide (Q x)) as [HQ|HQ].
  - rewrite filter_cons. destruct (decide (P x)) as [HP|HP].
    + rewrite decide_True by done. by rewrite IH.
    + rewrite decide_False by tauto. exact IH.
  - rewrite decide_False by tauto. exact IH.
Qed.

Lemma filter_ext_in {A} (P Q : A -> Prop)
    `{!forall x, Decision (P x)} `{!forall x, Decision (Q x)} (l : list A) :
  (forall x, x ∈ l -> P x <-> Q x) -> filter P l = filter Q l.
Proof.
  induction l as [|x l IH]; intros Hext; [done|].
  rewrite !filter_cons. rewrite IH by (intros y Hy; apply Hext; by right).
  destruct (decide (P x)) as [HP|HP].
  - rewrite decide_True; [done|]. apply Hext; [left|done].
  - rewrite decide_False; [done|]. intros HQ. apply HP, Hext; [left|done].
Qed.

(** Running the merge for a date again, with a shard that has at least
    the keys of the shard merged before, leaves no trace of the earlier
    shard: the store is what merging the later shard alone gives. *)
Theorem merge_query_rerun_supersedes (latest latest' historic : table) :
  (forall r, r ∈ latest -> key r ∈ key <$> latest') ->
  merge_query latest' (merge_query latest historic) = merge_query latest' historic.
Proof.
  intros Hkeys. rewrite !merge_query_anti_join. f_equal.
  rewrite filter_app. rewrite (filter_nil_iff _ latest).
  - cbn [app]. rewrite filter_filter_and. apply filter_ext_in.
    intros h Hh. split; [tauto|]. intros Hn. split; [done|].
    intros (r & Hk & Hr)%list_elem_of_fmap. apply Hn. rewrite Hk. by apply Hkeys.
  - apply Forall_forall. intros r Hr Hn. by apply Hn, Hkeys.
Qed.

(** The shards of two runs that share no key can be merged in either
    order: the two stores hold the same records, each as often. *)
Theorem merge_query_disjoint_commute (latest1 latest2 historic : table) :
  (forall r1 r2, r1 ∈ latest1 -> r2 ∈ latest2 -> key r1 <> key r2) ->
  (merge_query latest2 (merge_query latest1 historic))
  ≡ₚ (merge_query latest1 (merge_query latest2 historic)).
Proof.
  intros Hdis. rewrite !merge_query_anti_join, !filter_app.
  rewrite (filter_all _ latest1), (filter_all _ latest2).
  - rewrite !filter_filter_and.
    rewrite (filter_ext_in (fun x => (key x ∉ key <$> latest2) /\ (key x ∉ key <$> latest1))
               (fun x => (key x ∉ key <$> latest1) /\ (key x ∉ key <$> latest2)))
      by (intros; tauto).
    rewrite !app_assoc. apply Permutation_app_tail, Permutation_app_comm.
  - apply Forall_forall. intros r2 Hr2 (r1 & Hk & Hr1)%list_elem_of_fmap.
    by apply (Hdis r1 r2).
  - apply Forall_forall. intros r1 Hr1 (r2 & Hk & Hr2)%list_elem_of_fmap.
    by apply (Hdis r1 r2).
Qed.

(** What the merged store holds, whatever the shard and the store: the
    rows of the shard, and the rows of the store whose key the shard
    lacks.  No row of the store under another key is lost, none is
    invented; an empty shard leaves the store as it is, and the first
    merge into an empty store gives the shard. *)
Theorem merge_query_rows (latest historic : table) :
  (forall r, r ∈ merge_query latest historic
             <-> r ∈ latest \/ (r ∈ historic /\ key r ∉ key <$> latest))
  /\ merge_query [] historic = historic
  /\ merge_query latest [] = latest
  /\ (length latest <= length (merge_query latest historic)
      <= length latest + length historic)%nat.
Proof.
  rewrite !merge_query_anti_join. split; [|split; [|split]].
  - intros r. rewrite elem_of_app, list_elem_of_filter. tauto.
  - cbn. apply filter_all, Forall_forall. intros r _. apply not_elem_of_nil.
  - cbn. apply app_nil_r.
  - rewrite length_app.
    pose proof (length_filter (fun h => key h ∉ key <$> latest) historic). lia.
Qed.

Lemma merge_query_rerun_supersedes_witness :
  (forall r, r ∈ example_shard -> key r ∈ key <$> example_shard_again)
  /\ merge_query example_shard_again (merge_query example_shard example_store)
     = merge_query example_shard_again example_store.
Proof.
  assert (forall r, r ∈ example_shard -> key r ∈ key <$> example_shard_again) as Hkeys.
  { intros r [->|[->|[]%elem_of_nil]%elem_of_cons]%elem_of_cons;
      apply (bool_decide_unpack _); vm_compute; exact I. }
  split; [exact Hkeys|].
  exact (merge_query_rerun_supersedes example_shard example_shard_again example_store Hkeys).
Defined.

Lemma merge_query_disjoint_commute_witness :
  (forall r1 r2, r1 ∈ example_shard -> r2 ∈ example_shard_other -> key r1 <> key r2)
  /\ merge_query example_shard_other (merge_query example_shard example_store)
     ≡ₚ merge_query example_shard (merge_query example_shard_other example_store).
Proof.
  assert (forall r1 r2, r1 ∈ example_shard -> r2 ∈ example_shard_other -> key r1 <> key r2)
    as Hdis.
  { intros r1 r2 [->|[->|[]%elem_of_nil]%elem_of_cons]%elem_of_cons
      ->%list_elem_of_singleton; discriminate. }
  split; [exact Hdis|].
  exact (merge_query_disjoint_commute example_shard example_shard_other example_store Hdis).
Defined.

(** [daterange] yields the days from [start_date] up to, and without,
    [end_date], each once and in increasing order; nothing when
    [end_date] is not after [start_date]. *)
Theorem daterange_half_open (start_date end_date : Z) :
  (forall d, d ∈ daterange start_date end_date <-> start_date <= d < end_date)
  /\ length (daterange start_date end_date) = Z.to_nat (end_date - start_date)
  /\ (forall i d, daterange start_date end_date !! i = Some d -> d = start_date + Z.of_nat i)
  /\ (end_date <= start_date -> daterange start_date end_date = []).
Proof.
  unfold daterange. change (map ?f ?l) with (f <$> l). split; [|split; [|split]].
  - intros d. rewrite list_elem_of_fmap. split.
    + intros (n & -> & Hn%elem_of_seqZ). lia.
    + intros Hd. exists (d - start_date). split; [lia|]. apply elem_of_seqZ. lia.
  - by rewrite length_fmap, length_seqZ.
  - intros i d. rewrite list_lookup_fmap.
    destruct (seqZ 0 (end_date - start_date) !! i) as [n|] eqn:Hn; [|done].
    apply lookup_seqZ in Hn as [-> _]. intros [= <-]. lia.
  - intros Hle. unfold seqZ. rewrite Z2Nat.nonpos by lia. done.
Qed.

End merge_more.

Section monad_more.
Context `{Services}.

Lemma rbind_ok {A B} (r : result A) (k : A -> result B) (b : B) :
  rbind r k = Ok b -> exists a, r = Ok a /\ k a = Ok b.
Proof. destruct r as [a|e]; [|done]. eauto. Qed.

Lemma bind_ok {A B} (c : M A) (k : A -> M B) m b m' :
  bind c k m = (Ok b, m') -> exists a m1, c m = (Ok a, m1) /\ k a m1 = (Ok b, m').
Proof. unfold bind. destruct (c m) as [[a|e] m1]; [|done]. eauto. Qed.

Lemma getitem_ok k m v m' :
  getitem TheBus k m = (Ok v, m') -> bus m !! k = Some v /\ m' = m.
Proof. unfold getitem. destruct (bus m !! k); [|done]. by intros [= -> ->]. Qed.

Lemma lift_ok {A} (r : result A) m a m' : lift r m = (Ok a, m') -> r = Ok a /\ m' = m.
Proof. unfold lift. by intros [= -> ->]. Qed.

Lemma getitem_found k m v : bus m !! k = Some v -> getitem TheBus k m = (Ok v, m).
Proof. intros Hk. unfold getitem. by rewrite Hk. Qed.

Lemma stable_ret {A} (a : A) : bus_stable (ret a).
Proof. by intros m. Qed.

Lemma stable_raise {A} (e : exn) : bus_stable (raise (A := A) e).
Proof. by intros m. Qed.

Lemma stable_lift {A} (r : result A) : bus_stable (lift r).
Proof. by intros m. Qed.

Lemma stable_getitem data_bus k : bus_stable (getitem data_bus k).
Proof. intros m. unfold getitem. destruct data_bus; [|done]. by destruct (bus m !! k). Qed.

Lemma stable_setitem_none k v : bus_stable (setitem NoBus k v).
Proof. by intros m. Qed.

Lemma stable_call name args : bus_stable (call name args).
Proof. intros m. unfold call. by destruct (extern name args (world m)). Qed.

Lemma stable_bind {A B} (c : M A) (k : A -> M B) :
  bus_stable c -> (forall a, bus_stable (k a)) -> bus_stable (bind c k).
Proof.
  intros Hc Hk m. unfold bind. specialize (Hc m).
  destruct (c m) as [[a|e] m1]; cbn in *; [|done].
  by rewrite Hk.
Qed.

Lemma stable_foldM {A S} (body : S -> A -> M S) (xs : list A) (acc : S) :
  (forall acc x, bus_stable (body acc x)) -> bus_stable (foldM body xs acc).
Proof.
  intros Hbody. revert acc. induction xs as [|x xs IH]; intros acc; cbn.
  - apply stable_ret.
  - apply stable_bind; [apply Hbody|apply IH].
Qed.

Lemma unfailing_ret {A} (a : A) : unfailing (ret a).
Proof. intros m. by exists a, m. Qed.

Lemma unfailing_setitem k v : unfailing (setitem TheBus k v).
Proof. intros m. by eexists _, _. Qed.

Lemma unfailing_bind {A B} (c : M A) (k : A -> M B) :
  unfailing c -> (forall a, unfailing (k a)) -> unfailing (bind c k).
Proof.
  intros Hc Hk m. unfold bind. destruct (Hc m) as (a & m1 & ->). apply Hk.
Qed.

Lemma rolls_back_stable {A} (c : M A) : bus_stable c -> rolls_back c.
Proof. intros Hc m e m' Hrun. specialize (Hc m). by rewrite Hrun in Hc. Qed.

Lemma rolls_back_unfailing {A} (c : M A) : unfailing c -> rolls_back c.
Proof. intros Hc m e m' Hrun. destruct (Hc m) as (a & m1 & Hok). congruence. Qed.

Lemma rolls_back_bind {A B} (c : M A) (k : A -> M B) :
  bus_stable c -> (forall a, rolls_back (k a)) -> rolls_back (bind c k).
Proof.
  intros Hc Hk m e m'. unfold bind. specialize (Hc m).
  destruct (c m) as [[a|e1] m1]; cbn in Hc.
  - intros Hrun. rewrite <- Hc. by eapply Hk.
  - by intros [= _ <-].
Qed.

Lemma refuses_getitem k : refuses (getitem NoBus k).
Proof. intros m. by eexists _, _. Qed.

Lemma refuses_setitem k v : refuses (setitem NoBus k v).
Proof. intros m. by eexists _, _. Qed.

Lemma refuses_bind_l {A B} (c : M A) (k : A -> M B) : refuses c -> refuses (bind c k).
Proof. intros Hc m. unfold bind. destruct (Hc m) as (e & m' & -> & Hbus). by exists e, m'. Qed.

Lemma refuses_bind_r {A B} (c : M A) (k : A -> M B) :
  bus_stable c -> (forall a, refuses (k a)) -> refuses (bind c k).
Proof.
  intros Hc Hk m. unfold bind. specialize (Hc m).
  destruct (c m) as [[a|e] m1]; cbn in Hc.
  - destruct (Hk a m1) as (e & m' & -> & Hbus). exists e, m'. split; [done|congruence].
  - by exists e, m1.
Qed.

Lemma returns_ret {A} (a : A) : returns a (ret a).
Proof. intros m r m'. unfold ret. congruence. Qed.

Lemma returns_raise {A} (a : A) (e : exn) : returns a (raise e).
Proof. intros m r m'. unfold raise. congruence. Qed.

Lemma returns_bind {A B} (b : B) (c : M A) (k : A -> M B) :
  (forall a, returns b (k a)) -> returns b (bind c k).
Proof.
  intros Hk m r m'. unfold bind. destruct (c m) as [[a|e] m1]; [apply Hk|done].
Qed.

Lemma returns_bind_dep {A B} (P : A -> Prop) (b : B) (c : M A) (k : A -> M B) :
  (forall m a m', c m = (Ok a, m') -> P a) ->
  (forall a, P a -> returns b (k a)) -> returns b (bind c k).
Proof.
  intros Hc Hk m r m'. unfold bind. destruct (c m) as [[a|e] m1] eqn:Hrun; [|done].
  apply Hk. by eapply Hc.
Qed.

Lemma reads_getitem data_bus k : reads_only (getitem data_bus k).
Proof. intros m. unfold getitem. destruct data_bus; [|done]. by destruct (bus m !! k). Qed.

Lemma reads_lift {A} (r : result A) : reads_only (lift r).
Proof. by intros m. Qed.

Lemma reads_setitem_none k v : reads_only (setitem NoBus k v).
Proof. by intros m. Qed.

Lemma undone_reads {A} (c : M A) : reads_only c -> undone c.
Proof. intros Hc m e m' Hrun. specialize (Hc m). by rewrite Hrun in Hc. Qed.

Lemma undone_bind {A B} (c : M A) (k : A -> M B) :
  reads_only c -> (forall a, undone (k a)) -> undone (bind c k).
Proof.
  intros Hc Hk m e m'. unfold bind. specialize (Hc m).
  destruct (c m) as [[a|e1] m1]; cbn in Hc; subst m1.
  - apply Hk.
  - by intros [= _ <-].
Qed.

Lemma undone_writes k v {B} (c : M B) :
  (forall m, exists b m', c m = (Ok b, m')) -> undone (bind (setitem TheBus k v) (fun _ => c)).
Proof.
  intros Hc m e m'. unfold bind, setitem.
  destruct (Hc {| bus := <[k:=v]> (bus m); world := world m |}) as (b & m1 & ->). done.
Qed.

Lemma preserves_stable {A} (P : gmap string obj -> Prop) (c : M A) :
  bus_stable c -> preserves P c.
Proof. intros Hc m HP. by rewrite Hc. Qed.

Lemma preserves_bind {A B} (P : gmap string obj -> Prop) (c : M A) (k : A -> M B) :
  preserves P c -> (forall a, preserves P (k a)) -> preserves P (bind c k).
Proof.
  intros Hc Hk m HP. unfold bind. specialize (Hc m HP).
  destruct (c m) as [[a|e] m1]; cbn in *; [|done]. by apply Hk.
Qed.

Lemma preserves_foldM {A S} (P : gmap string obj -> Prop) (body : S -> A -> M S)
    (xs : list A) (acc : S) :
  (forall acc x, preserves P (body acc x)) -> preserves P (foldM body xs acc).
Proof.
  intros Hbody. revert acc. induction xs as [|x xs IH]; intros acc; cbn.
  - by intros m.
  - apply preserves_bind; [apply Hbody|apply IH].
Qed.

End monad_more.

Ltac stable :=
  repeat first
    [ apply stable_ret
    | apply stable_raise
    | apply stable_lift
    | apply stable_getitem
    | apply stable_setitem_none
    | apply stable_call
    | apply stable_foldM; intros ? ?
    | match goal with
      | |- bus_stable (if ?b then _ else _) => destruct b
      | |- bus_stable (let (_, _) := ?p in _) => destruct p
      | |- bus_stable (match ?x with _ => _ end) => destruct x
      end
    | apply stable_bind; [|intros ?] ].

Ltac unfail :=
  repeat first
    [ apply unfailing_ret
    | apply unfailing_setitem
    | apply unfailing_bind; [|intros ?] ].

Ltac rolls :=
  repeat lazymatch goal with
    | |- rolls_back (bind (setitem TheBus _ _) _) => apply rolls_back_unfailing; unfail
    | |- rolls_back (bind _ _) => apply rolls_back_bind; [stable|intros ?]
    | |- rolls_back (if ?b then _ else _) => destruct b
    | |- rolls_back (match ?x with _ => _ end) => destruct x
    | |- rolls_back _ => apply rolls_back_stable; stable
    end.

Ltac refuse :=
  repeat lazymatch goal with
    | |- refuses (getitem NoBus _) => apply refuses_getitem
    | |- refuses (setitem NoBus _ _) => apply refuses_setitem
    | |- refuses (bind (getitem NoBus _) _) => apply refuses_bind_l, refuses_getitem
    | |- refuses (bind (setitem NoBus _ _) _) => apply refuses_bind_l, refuses_setitem
    | |- refuses (bind _ _) => apply refuses_bind_r; [stable|intros ?]
    | |- refuses (if ?b then _ else _) => destruct b
    end.

Ltac give_back :=
  repeat lazymatch goal with
    | |- returns _ (ret _) => apply returns_ret
    | |- returns _ (raise _) => apply returns_raise
    | |- returns _ (bind _ _) => apply returns_bind; intros ?
    | |- returns _ (if ?b then _ else _) => destruct b
    | |- returns _ (match ?x with _ => _ end) => destruct x
    end.

(** The tasks of the five flows, spelled out. *)
Ltac each_stage :=
  unfold all_stages, historic.pipeline_stages, forecast.pipeline_stages,
    holidays.pipeline_stages, footfall_leeds.pipeline_stages,
    footfall_york.pipeline_stages;
  cbn [app];
  unfold api_functions.get_api_key_task, api_functions.load_raw_to_bucket_task,
    api_functions.load_df_to_bucket_task, api_functions.load_df_to_bigquery_task;
  repeat (apply Forall_cons; split; [|]); [..|apply Forall_nil_2].

Ltac open_stage :=
  unfold api_functions.get_api_key, api_functions.load_raw_to_bucket,
    api_functions.load_df_to_bucket, api_functions.load_df_to_bigquery,
    historic.get_data, historic.process_to_df, historic.update_tablename,
    historic.update_historic_table, forecast.get_forecast, forecast.process_to_df,
    holidays.retrieve_date, holidays.process_to_df, footfall_leeds.download_data,
    footfall_leeds.load_to_bucket, footfall_leeds.clean_all_dfs,
    footfall_leeds.load_df_to_bigquery, footfall_york.download_data,
    footfall_york.load_to_bucket, footfall_york.clean_df,
    footfall_york.load_df_to_bigquery.

Section stage_more.
Context `{Services}.

Lemma returns_clean_df data_bus df_name :
  returns data_bus (footfall_leeds.clean_df data_bus df_name).
Proof. unfold footfall_leeds.clean_df. give_back. Qed.

Lemma returns_foldM_clean_df (xs : list (string * obj)) data_bus :
  returns data_bus
    (foldM (fun data_bus (entry : string * obj) => footfall_leeds.clean_df data_bus entry.1)
       xs data_bus).
Proof.
  induction xs as [|x xs IH]; cbn.
  - apply returns_ret.
  - apply (returns_bind_dep (fun b => b = data_bus)).
    + intros m a m'. apply returns_clean_df.
    + intros b ->. exact IH.
Qed.

Lemma returns_clean_all_dfs data_bus :
  returns data_bus (footfall_leeds.clean_all_dfs data_bus).
Proof.
  unfold footfall_leeds.clean_all_dfs. do 2 (apply returns_bind; intros ?).
  apply (returns_bind_dep (fun b => b = data_bus)).
  - intros m b m'. apply returns_foldM_clean_df.
  - intros b ->. give_back.
Qed.

(** Every stage of the five flows hands back the dictionary it was
    given when it returns, but for [update_historic_table], which hands
    back [None]. *)
Theorem stages_return_their_bus :
  Forall (fun stage =>
            forall data_bus m r m',
              fn stage data_bus m = (Ok r, m') ->
              r = if decide (task_name stage = "Update historic data table")
                  then NoBus else data_bus)
    all_stages.
Proof.
  each_stage.
  all: cbn [fn task_name]; intros data_bus;
    lazymatch goal with
    | |- context [footfall_leeds.clean_all_dfs] =>
        rewrite decide_False by discriminate; apply returns_clean_all_dfs
    | |- context [historic.update_historic_table] =>
        rewrite decide_True by reflexivity;
        change (returns NoBus (historic.update_historic_table data_bus));
        open_stage; give_back
    | |- forall m r m', ?c m = _ -> _ =>
        rewrite decide_False by discriminate;
        change (returns data_bus c); open_stage; give_back
    end.
Qed.

(** No stage of the five flows can run on [None]: it raises, and the
    dictionary of the run is as it was.  So no stage could follow
    [update_historic_table] in a flow: whatever stage comes next, and
    however often it is retried, the two in a row raise. *)
Theorem stages_need_a_bus :
  Forall (fun stage =>
            (forall m, exists e m', fn stage NoBus m = (Raise e, m') /\ bus m' = bus m)
            /\ (forall data_bus m log,
                  exists e m' log',
                    run_stages [Task "Update historic data table" 0
                                  historic.update_historic_table; stage] data_bus m log
                    = (Raise e, m', log')))
    all_stages.
Proof.
  assert (forall stage,
            refuses (fn stage NoBus) ->
            (forall m, exists e m', fn stage NoBus m = (Raise e, m') /\ bus m' = bus m)
            /\ (forall data_bus m log,
                  exists e m' log',
                    run_stages [Task "Update historic data table" 0
                                  historic.update_historic_table; stage] data_bus m log
                    = (Raise e, m', log'))) as Hstage.
  { intros stage Hno. split; [exact Hno|]. intros data_bus m log.
    cbn [run_stages]. unfold run_task at 1. cbn [retries run_attempts fn task_name].
    destruct (historic.update_historic_table data_bus m) as [[r|e] m1] eqn:Hrun;
      [|by eexists _, _, _].
    assert (r = NoBus) as ->.
    { revert Hrun. generalize m r m1.
      change (returns NoBus (historic.update_historic_table data_bus)).
      unfold historic.update_historic_table. give_back. }
    unfold run_task. generalize (log ++ ["Update historic data table"]) as log1.
    generalize m1 as m2. induction (retries stage) as [|n IH]; intros m2 log1; cbn.
    - destruct (Hno m2) as (e & m' & -> & _). by eexists _, _, _.
    - destruct (Hno m2) as (e & m' & -> & _). destruct (IH m' (log1 ++ [task_name stage]))
        as (e' & m'' & log' & ->). by eexists _, _, _. }
  each_stage.
  all: apply Hstage; cbn [fn]; open_stage; refuse.
Qed.

(** A stage that raises leaves the dictionary of the run as it was
    before the stage: every stage reads first and writes last.  The
    two stages that write while they work are left out: [get_data] of
    the historic flow and [clean_all_dfs] of the Leeds flow. *)
Theorem failed_stage_leaves_bus :
  let unchanged stage :=
    forall data_bus m e m', fn stage data_bus m = (Raise e, m') -> bus m' = bus m in
  Forall (fun stage =>
            task_name stage = "Get historic weather data from API" \/ unchanged stage)
    historic.pipeline_stages
  /\ Forall unchanged forecast.pipeline_stages
  /\ Forall unchanged holidays.pipeline_stages
  /\ Forall (fun stage => task_name stage = "Clean raw dataframes" \/ unchanged stage)
       footfall_leeds.pipeline_stages
  /\ Forall unchanged footfall_york.pipeline_stages.
Proof.
  cbv zeta.
  unfold historic.pipeline_stages, forecast.pipeline_stages,
    holidays.pipeline_stages, footfall_leeds.pipeline_stages,
    footfall_york.pipeline_stages.
  unfold api_functions.get_api_key_task, api_functions.load_raw_to_bucket_task,
    api_functions.load_df_to_bucket_task, api_functions.load_df_to_bigquery_task.
  repeat split.
  all: repeat (apply Forall_cons; split; [cbn [fn task_name]|]); [..|apply Forall_nil_2].
  all: try apply Forall_nil_2.
  all: lazymatch goal with
       | |- "Get historic weather data from API" = _ \/ _ => left; reflexivity
       | |- "Clean raw dataframes" = _ \/ _ => left; reflexivity
       | |- _ \/ _ => right
       | |- _ => idtac
       end.
  all: intros data_bus;
    lazymatch goal with
    | |- forall m e m', ?c m = _ -> _ => change (rolls_back c)
    end;
    open_stage; destruct data_bus; rolls.
Qed.

(** [get_data] of the historic flow empties [api_response] before it
    asks for the first city: whatever happens next, the response of an
    earlier run is gone, a dictionary of the responses received so far
    is in its place, and no other key of the data bus has changed. *)
Theorem get_data_resets_response (m m' : machine) (api_key : obj) (t : Z)
    (r : result busref) :
  bus m !! "api_key" = Some api_key ->
  bus m !! "date" = Some (OTime t) ->
  historic.get_data TheBus m = (r, m') ->
  (exists d, bus m' !! "api_response" = Some (ODict d))
  /\ (forall k, k <> "api_response" -> bus m' !! k = bus m !! k)
  /\ (bus m !! "api_cities" = None ->
      r = Raise (KeyError "api_cities") /\ bus m' !! "api_response" = Some (ODict [])).
Proof.
  intros Hkey Hdate. unfold historic.get_data.
  unfold bind at 1. rewrite (getitem_found _ _ _ Hkey).
  unfold bind at 1. rewrite (getitem_found _ _ _ Hdate).
  unfold bind at 1. cbn [lift as_time].
  unfold bind at 1. cbn [setitem].
  set (m1 := {| bus := <["api_response" := ODict []]> (bus m); world := world m |}).
  set (P := fun b : gmap string obj =>
              (exists d, b !! "api_response" = Some (ODict d))
              /\ forall k, k <> "api_response" -> b !! k = bus m !! k).
  assert (P (bus m1)) as HP1.
  { split; [exists []; apply lookup_insert_eq|].
    intros k Hk. cbn. by rewrite lookup_insert_ne. }
  assert (forall d, preserves P (setitem TheBus "api_response" (ODict d))) as Hset.
  { intros d m0 [_ Hother]. split; [exists d; apply lookup_insert_eq|].
    intros k Hk. cbn. rewrite lookup_insert_ne by done. by apply Hother. }
  lazymatch goal with
  | |- ?c m1 = _ -> _ => assert (preserves P c) as Hrest
  end.
  { apply preserves_bind; [apply preserves_stable; stable|intros api_cities].
    apply preserves_bind; [apply preserves_stable; stable|intros cities].
    apply preserves_bind; [|intros ?; apply preserves_stable; stable].
    apply preserves_foldM. intros [] city.
    do 8 (apply preserves_bind; [apply preserves_stable; stable|intros ?]).
    apply Hset. }
  intros Hrun. pose proof (Hrest m1 HP1) as [Hd Hother]. rewrite Hrun in Hd, Hother.
  split; [exact Hd|]. split; [exact Hother|].
  intros Hcities. revert Hrun. unfold bind at 1.
  assert (bus m1 !! "api_cities" = None) as Hnone
    by (subst m1; cbn; by rewrite lookup_insert_ne).
  unfold getitem at 1. rewrite Hnone. intros [= <- <-]. split; [done|].
  apply lookup_insert_eq.
Qed.

End stage_more.

Section leeds_more.
Context `{Services}.
Import pandas footfall_leeds.

(** The text [clean_hours] returns is two digits and [:00:00], whatever
    the digits (no hour is out of range for it), and it is a fixed
    point: cleaning a cleaned hour gives it back. *)
Theorem clean_hours_canonical (x : obj) (hour : string) :
  clean_hours x = Ok hour ->
  (exists a b, is_digit a = true /\ is_digit b = true
     /\ hour = String a (String b ":00:00"))
  /\ clean_hours (OStr hour) = Ok hour.
Proof.
  unfold clean_hours. destruct (search_hour (py_str x)) as [digits|] eqn:Hs; [|done].
  intros [= <-].
  assert (exists a b, is_digit a = true /\ is_digit b = true
            /\ rjust 2 "0" digits = String a (String b EmptyString))
    as (a & b & Ha & Hb & Hd).
  { unfold search_hour in Hs. destruct (py_str x) as [|a rest]; [done|].
    destruct (is_digit a) eqn:Ha; [|done].
    destruct rest as [|b rest'].
    - injection Hs as <-. by exists "0"%char, a.
    - destruct (is_digit b && hour_end rest') eqn:Hb.
      + injection Hs as <-. apply andb_true_iff in Hb as [Hb _]. by exists a, b.
      + destruct (hour_end (String b rest')); [|done]. injection Hs as <-.
        by exists "0"%char, a. }
  rewrite Hd.
  change (String.app (String a (String b EmptyString)) ":00:00")
    with (String a (String b ":00:00")).
  split; [by exists a, b|].
  cbn [py_str]. unfold search_hour. rewrite Ha, Hb.
  change (hour_end ":00:00") with true. cbn [andb]. reflexivity.
Qed.

Lemma create_preferred_column_cases (d : DataFrame obj) prefered_columns new_column :
  ((forall c, c ∈ prefered_columns -> c ∉ columns d)
   /\ create_preferred_column (OFrame d) prefered_columns new_column = Ok (OBool false))
  \/ (exists source,
        source ∈ prefered_columns /\ source ∈ columns d
        /\ create_preferred_column (OFrame d) prefered_columns new_column
           = Ok (OFrame (assign d new_column (fun r => cell r source)))).
Proof.
  induction prefered_columns as [|source rest IH]; cbn.
  - left. split; [|done]. by intros c ?%elem_of_nil.
  - destruct (decide (source ∈ columns d)) as [Hin|Hout].
    + right. exists source. split; [left|done].
    + destruct IH as [[Hnone ->]|(s & Hs & Hcol & ->)].
      * left. split; [|done]. intros c [->|Hc]%elem_of_cons; [done|by apply Hnone].
      * right. exists s. split; [by right|done].
Qed.

Lemma create_preferred_column_not_frame (b : bool) prefered_columns new_column :
  create_preferred_column (OBool b) prefered_columns new_column
  = match prefered_columns with
    | [] => Ok (OBool false)
    | _ => Raise AttributeError
    end.
Proof. by destruct prefered_columns. Qed.

Lemma clean_rows_without_hour (d : DataFrame obj) :
  "Hour" ∉ columns d -> clean_rows (OFrame d) = Raise (KeyError "Hour").
Proof.
  intros Hno. unfold clean_rows. cbn [rbind]. unfold count_na.
  by rewrite decide_False.
Qed.

Lemma drop_unnamed_columns (d : DataFrame obj) c :
  c ∈ columns (drop_unnamed d) -> c ∈ columns d.
Proof.
  unfold drop_unnamed, drop_columns. cbn [columns].
  rewrite !list_elem_of_In, filter_In. tauto.
Qed.

(** A frame without an [Hour] column is never cleaned. *)
Lemma clean_frame_without_hour prefered_footfall_columns prefered_location_columns
    (d : DataFrame obj) :
  "Hour" ∉ columns d ->
  exists e,
    clean_frame prefered_footfall_columns prefered_location_columns d = Raise e
    /\ (e = KeyError "Hour" \/ e = AttributeError \/ e = TypeError).
Proof.
  intros Hno. unfold clean_frame.
  assert ("Hour" ∉ columns (drop_unnamed d)) as Hno1
    by (intros Hin; by apply Hno, drop_unnamed_columns).
  destruct (create_preferred_column_cases (drop_unnamed d) prefered_footfall_columns
              "total_footfall") as [[_ ->]|(s & _ & _ & ->)]; cbn [rbind].
  - rewrite create_preferred_column_not_frame.
    destruct prefered_location_columns; cbn [rbind]; eauto.
  - set (d2 := assign (drop_unnamed d) "total_footfall" (fun r => cell r s)).
    assert ("Hour" ∉ columns d2) as Hno2.
    { subst d2. cbn [columns assign]. rewrite elem_of_add_label. by intros [?|?]. }
    destruct (create_preferred_column_cases d2 prefered_location_columns
                "footfall_location") as [[_ ->]|(s' & _ & _ & ->)]; cbn [rbind].
    + eauto.
    + rewrite clean_rows_without_hour; [eauto|].
      cbn [columns assign]. rewrite elem_of_add_label. by intros [?|?].
Qed.

Lemma select_columns (df out : DataFrame obj) cols :
  select df cols = Ok out -> columns out = cols.
Proof. unfold select. destruct (List.find _ cols); [done|]. by intros [= <-]. Qed.

Lemma clean_rows_columns (df : obj) (out : DataFrame obj) :
  clean_rows df = Ok out ->
  columns out = ["city"; "footfall_location"; "timestamp"; "total_footfall"].
Proof.
  unfold clean_rows. intros Hrun.
  repeat (apply rbind_ok in Hrun as (? & _ & Hrun)).
  by apply select_columns in Hrun.
Qed.

Lemma clean_frame_columns prefered_footfall_columns prefered_location_columns
    (d out : DataFrame obj) :
  clean_frame prefered_footfall_columns prefered_location_columns d = Ok out ->
  columns out = ["city"; "footfall_location"; "timestamp"; "total_footfall"].
Proof.
  unfold clean_frame. intros Hrun. cbv zeta in Hrun.
  do 2 (apply rbind_ok in Hrun as (? & _ & Hrun)).
  by apply clean_rows_columns in Hrun.
Qed.

(** What a call of [clean_df] that returns has read and written. *)
Lemma clean_df_ok data_bus df_name m r m' :
  clean_df data_bus df_name m = (Ok r, m') ->
  data_bus = TheBus
  /\ exists dfs d footfall location pf pl out,
       bus m !! "dfs" = Some (ODict dfs)
       /\ dict_get dfs df_name = Some (OFrame d)
       /\ bus m !! "prefered_footfall_columns" = Some footfall
       /\ sources footfall = Ok pf
       /\ bus m !! "prefered_location_columns" = Some location
       /\ sources location = Ok pl
       /\ clean_frame pf pl d = Ok out
       /\ m' = {| bus := <["dfs" := ODict (dict_set dfs df_name (OFrame out))]> (bus m);
                  world := world m |}.
Proof.
  destruct data_bus; [|done]. intros Hrun. split; [done|]. unfold clean_df in Hrun.
  apply bind_ok in Hrun as (dfs0 & ? & [Hdfs ->]%getitem_ok & Hrun).
  apply bind_ok in Hrun as (df0 & ? & [Hsub ->]%lift_ok & Hrun).
  apply bind_ok in Hrun as (d & ? & [Hfr ->]%lift_ok & Hrun).
  apply bind_ok in Hrun as (footfall & ? & [Hpf ->]%getitem_ok & Hrun).
  apply bind_ok in Hrun as (pf & ? & [Hspf ->]%lift_ok & Hrun).
  apply bind_ok in Hrun as (location & ? & [Hpl ->]%getitem_ok & Hrun).
  apply bind_ok in Hrun as (pl & ? & [Hspl ->]%lift_ok & Hrun).
  apply bind_ok in Hrun as (out & ? & [Hclean ->]%lift_ok & Hrun).
  apply bind_ok in Hrun as (dfs1 & ? & [Hdfs1 ->]%getitem_ok & Hrun).
  apply bind_ok in Hrun as (dfs & ? & [Hitems ->]%lift_ok & Hrun).
  apply bind_ok in Hrun as ([] & ? & Hset & Hrun).
  injection Hset as <-. injection Hrun as <- <-.
  destruct dfs1 as [| | | | | | | | |dfs'|]; try done. injection Hitems as ->.
  rewrite Hdfs in Hdfs1. injection Hdfs1 as ->.
  cbn in Hsub. destruct (dict_get dfs df_name) as [v|] eqn:Hget; [|done].
  injection Hsub as ->. destruct df0; try done. injection Hfr as ->.
  by exists dfs, d, footfall, location, pf, pl, out.
Qed.

Lemma clean_df_undone data_bus df_name : undone (clean_df data_bus df_name).
Proof.
  unfold clean_df.
  do 10 (apply undone_bind; [first [apply reads_getitem | apply reads_lift]|intros ?]).
  destruct data_bus.
  - apply undone_writes. intros m. by eexists _, _.
  - apply undone_bind; [apply reads_setitem_none|intros ?]. by intros m e m'.
Qed.

(** [clean_df] works on a copy of the frame and writes it back at its
    last line: when it raises, nothing has changed. *)
Theorem clean_df_all_or_nothing (data_bus : busref) (df_name : string)
    (m m' : machine) (e : exn) :
  clean_df data_bus df_name m = (Raise e, m') -> m' = m.
Proof. apply clean_df_undone. Qed.

Lemma clean_df_raises_without_hour df_name m dfs d :
  bus m !! "dfs" = Some (ODict dfs) ->
  dict_get dfs df_name = Some (OFrame d) ->
  "Hour" ∉ columns d ->
  exists e, clean_df TheBus df_name m = (Raise e, m).
Proof.
  intros Hdfs Hget Hno.
  destruct (clean_df TheBus df_name m) as [[r|e] m1] eqn:Hrun.
  - apply clean_df_ok in Hrun
      as (_ & dfs' & d' & ? & ? & pf & pl & out & Hdfs' & Hget' & _ & _ & _ & _ & Hclean & _).
    rewrite Hdfs in Hdfs'. injection Hdfs' as <-.
    rewrite Hget in Hget'. injection Hget' as <-.
    destruct (clean_frame_without_hour pf pl d Hno) as (e & He & _). congruence.
  - exists e. f_equal. by apply clean_df_undone in Hrun.
Qed.

(** A frame is cleaned once: when [clean_df] has returned, the frame it
    has stored has the four output columns, and a second call for the
    same name raises and changes nothing. *)
Theorem clean_df_twice_raises (df_name : string) (m m' : machine) (r : busref) :
  clean_df TheBus df_name m = (Ok r, m') ->
  exists dfs out,
    bus m' !! "dfs" = Some (ODict dfs)
    /\ dict_get dfs df_name = Some (OFrame out)
    /\ columns out = ["city"; "footfall_location"; "timestamp"; "total_footfall"]
    /\ exists e, clean_df TheBus df_name m' = (Raise e, m').
Proof.
  intros Hrun. apply clean_df_ok in Hrun
    as (_ & dfs & d & ? & ? & pf & pl & out & Hdfs & Hget & _ & _ & _ & _ & Hclean & ->).
  pose proof (clean_frame_columns _ _ _ _ Hclean) as Hcols.
  exists (dict_set dfs df_name (OFrame out)), out. cbn [bus].
  split; [apply lookup_insert_eq|]. split; [apply dict_get_set_eq|]. split; [done|].
  apply (clean_df_raises_without_hour _ _ (dict_set dfs df_name (OFrame out)) out).
  - cbn [bus]. apply lookup_insert_eq.
  - apply dict_get_set_eq.
  - rewrite Hcols. apply (bool_decide_unpack _). by vm_compute.
Qed.

(** Once the first frame of [data_bus['dfs']] has no [Hour] column, as
    after a cleaning that failed on a later frame, [clean_all_dfs]
    raises on it and changes nothing, at every retry: the retries of
    the task cannot succeed. *)
Theorem clean_all_dfs_retry_stuck (m : machine) (df_name : string) (d : DataFrame obj)
    (rest : list (string * obj)) :
  bus m !! "dfs" = Some (ODict ((df_name, OFrame d) :: rest)) ->
  "Hour" ∉ columns d ->
  exists e,
    clean_all_dfs TheBus m = (Raise e, m)
    /\ forall n log,
         run_attempts n (Task "Clean raw dataframes" 3 clean_all_dfs) TheBus m log
         = (Raise e, m, log ++ replicate (S n) "Clean raw dataframes").
Proof.
  intros Hdfs Hno.
  destruct (clean_df_raises_without_hour df_name m _ d Hdfs) as (e & Hrun); [|done|].
  { cbn. by rewrite decide_True. }
  assert (clean_all_dfs TheBus m = (Raise e, m)) as Hall.
  { unfold clean_all_dfs. unfold bind at 1. rewrite (getitem_found _ _ _ Hdfs).
    unfold bind at 1. cbn [lift items]. unfold bind at 1. cbn [foldM].
    unfold bind at 1. cbn [fst]. by rewrite Hrun. }
  exists e. split; [exact Hall|].
  intros n. induction n as [|n IH]; intros log; cbn [run_attempts fn task_name].
  - by rewrite Hall.
  - rewrite Hall, IH. by rewrite <- app_assoc.
Qed.

End leeds_more.

Section weather_more.
Context `{Services}.
Import pandas.



(** The labels of a frame built from records that all have the keys
    [labels], in this order. *)
Lemma fold_add_label_fresh (cs labels : list string) :
  NoDup (cs ++ labels) ->
  foldl (fun cs c => add_label c cs) cs labels = cs ++ labels.
Proof.
  revert cs. induction labels as [|c labels IH]; intros cs Hnd; cbn.
  - by rewrite app_nil_r.
  - unfold add_label at 2. rewrite decide_False.
    + rewrite IH; rewrite <- app_assoc; [done|exact Hnd].
    + apply NoDup_app in Hnd as (_ & Hnd & _). intros Hin. apply (Hnd c Hin). left.
Qed.

Lemma fold_add_label_present (cs labels : list string) :
  (forall c, c ∈ labels -> c ∈ cs) ->
  foldl (fun cs c => add_label c cs) cs labels = cs.
Proof.
  induction labels as [|c labels IH]; intros Hin; cbn; [done|].
  rewrite add_label_present by (apply Hin; left).
  apply IH. intros c' Hc'. apply Hin. by right.
Qed.

Lemma fold_add_label_record (cs : list string) (rec : list (string * obj)) :
  foldl (fun cs kv => add_label kv.1 cs) cs rec
  = foldl (fun cs c => add_label c cs) cs (map fst rec).
Proof. revert cs. induction rec as [|kv rec IH]; intros cs; cbn; [done|apply IH]. Qed.

Lemma labels_of_records_uniform (labels : list string) (records : list (list (string * obj))) :
  NoDup labels ->
  Forall (fun rec => map fst rec = labels) records ->
  labels_of_records records = match records with [] => [] | _ => labels end.
Proof.
  intros Hnd Hall. unfold labels_of_records.
  destruct Hall as [|rec records Hrec Hall]; [done|]. cbn [foldl].
  rewrite fold_add_label_record, Hrec, (fold_add_label_fresh [] labels Hnd). cbn [app].
  induction Hall as [|rec' records Hrec' Hall IH]; [done|]. cbn [foldl].
  rewrite fold_add_label_record, Hrec', fold_add_label_present by done. exact IH.
Qed.








End weather_more.

Section holidays_more.
Context `{Services}.
Import pandas holidays.

Lemma listed_spec (l : list obj) (k : string) :
  existsb (fun x => match x with OStr s => bool_decide (s = k) | _ => false end) l = true
  <-> OStr k ∈ l.
Proof.
  rewrite existsb_exists. split.
  - intros (x & Hin%list_elem_of_In & Hx). destruct x; try done.
    by apply bool_decide_eq_true in Hx as ->.
  - intros Hin. exists (OStr k). split; [by apply list_elem_of_In|].
    by apply bool_decide_eq_true.
Qed.

(** Which days [process_to_df] of the holidays flow keeps: a day whose
    [counties] is [None], a day whose list of counties names [GB-ENG],
    and otherwise a day named Saint Patrick's Day.  The name is only
    read in the last case: there a day without a name raises, as does
    any day without a [counties] field. *)
Theorem celebrated_in_england_cases (d : list (string * obj)) :
  (dict_get d "counties" = None ->
   celebrated_in_england (ODict d) = Raise (KeyError "counties"))
  /\ (dict_get d "counties" = Some ONone -> celebrated_in_england (ODict d) = Ok true)
  /\ (forall l, dict_get d "counties" = Some (OList l) -> OStr "GB-ENG" ∈ l ->
        celebrated_in_england (ODict d) = Ok true)
  /\ (forall l name, dict_get d "counties" = Some (OList l) -> OStr "GB-ENG" ∉ l ->
        dict_get d "name" = Some name ->
        celebrated_in_england (ODict d) = Ok (str_equals name "Saint Patrick's Day"))
  /\ (forall l, dict_get d "counties" = Some (OList l) -> OStr "GB-ENG" ∉ l ->
        dict_get d "name" = None ->
        celebrated_in_england (ODict d) = Raise (KeyError "name")).
Proof.
  unfold celebrated_in_england, subscript. repeat split.
  - by intros ->.
  - by intros ->.
  - intros l -> Hin. cbn [rbind contains].
    by rewrite (proj2 (listed_spec l "GB-ENG") Hin).
  - intros l name -> Hout Hname. cbn [rbind contains].
    destruct (existsb _ l) eqn:Hl; [by apply listed_spec in Hl|].
    by rewrite Hname.
  - intros l -> Hout Hname. cbn [rbind contains].
    destruct (existsb _ l) eqn:Hl; [by apply listed_spec in Hl|].
    by rewrite Hname.
Qed.

(** The rows [process_to_df] of the holidays flow appends for one
    response: one row for each day that is kept, in the order of the
    response, holding the day's [date] and, under [name], its
    [localName]; the frame built from them has the two columns [date]
    and [name], or no column when no day is kept. *)
Theorem day_rows_kept_days (days : list obj) (rows : list (list (string * obj))) :
  day_rows days = Ok rows ->
  rows = map (fun day => [("date", value_or ONone (subscript day "date"));
                          ("name", value_or ONone (subscript day "localName"))])
           (List.filter (fun day => value_or false (celebrated_in_england day)) days)
  /\ (forall day, day ∈ days -> exists keep, celebrated_in_england day = Ok keep)
  /\ columns (DataFrame_of_records rows)
     = match rows with [] => [] | _ => ["date"; "name"] end.
Proof.
  intros Hrun.
  assert (rows = map (fun day => [("date", value_or ONone (subscript day "date"));
                                  ("name", value_or ONone (subscript day "localName"))])
                   (List.filter (fun day => value_or false (celebrated_in_england day))
                      days)
          /\ (forall day, day ∈ days -> exists keep, celebrated_in_england day = Ok keep))
    as [Hrows Hjudged].
  { revert rows Hrun. induction days as [|day days IH]; intros rows; cbn [day_rows].
    - intros [= <-]. split; [done|]. by intros day ?%elem_of_nil.
    - intros Hrun.
      apply rbind_ok in Hrun as (keep & Hkeep & Hrun).
      apply rbind_ok in Hrun as (first & Hfirst & Hrun).
      apply rbind_ok in Hrun as (more & Hmore & Hrun).
      injection Hrun as <-. destruct (IH more Hmore) as [-> Hall]. split.
      + cbn [List.filter]. rewrite Hkeep. cbn [value_or]. destruct keep.
        * apply rbind_ok in Hfirst as (date & Hdate & Hfirst).
          apply rbind_ok in Hfirst as (name & Hname & Hfirst).
          injection Hfirst as <-. cbn [map app]. by rewrite Hdate, Hname.
        * by injection Hfirst as <-.
      + intros day' [->|Hin]%elem_of_cons; [eauto|by apply Hall]. }
  split; [exact Hrows|]. split; [exact Hjudged|].
  unfold DataFrame_of_records. cbn [columns].
  apply labels_of_records_uniform.
  - apply (bool_decide_unpack _). by vm_compute.
  - rewrite Hrows. apply Forall_map. by apply Forall_true.
Qed.


Lemma call_ok name args m v m' :
  call name args m = (Ok v, m') -> bus m' = bus m.
Proof. unfold call. destruct (extern name args (world m)). by intros [= _ <-]. Qed.


End holidays_more.

Section york_more.
Context `{Services}.
Import pandas.

Lemma select_ok (df out : DataFrame obj) cols :
  select df cols = Ok out ->
  out = {| columns := cols; rows := map (project cols) (rows df) |}
  /\ forall c, c ∈ cols -> c ∈ columns df.
Proof.
  unfold select. destruct (List.find _ cols) eqn:Hfind; [done|]. intros [= <-].
  split; [done|]. intros c Hc%list_elem_of_In.
  pose proof (find_none _ _ Hfind c Hc) as Hin. cbn beta in Hin.
  apply bool_decide_eq_false in Hin. by apply dec_stable.
Qed.

Lemma assign_result_ok (df df' : DataFrame obj) c f :
  assign_result df c f = Ok df' ->
  columns df' = add_label c (columns df)
  /\ Forall2 (fun r r' => exists v, f r = Ok v /\ r' = <[c := v]> r) (rows df) (rows df').
Proof.
  unfold assign_result. intros (rs & Hrs & [= <-])%rbind_ok. split; [done|]. cbn [rows].
  apply map_result_Forall2 in Hrs. eapply Forall2_impl; [exact Hrs|].
  intros r r' (v & Hv & [= <-])%rbind_ok. eauto.
Qed.

Lemma cell_filled (f : string -> obj) (cols : list string) c :
  c ∈ cols -> cell (list_to_map (map (fun c => (c, f c)) cols)) c = f c.
Proof.
  unfold cell. induction cols as [|c0 cols IH]; [by intros ?%elem_of_nil|].
  intros Hin. cbn [map list_to_map foldr uncurry fst snd].
  destruct (decide (c0 = c)) as [->|Hne].
  - by rewrite lookup_insert_eq.
  - rewrite lookup_insert_ne by done. apply IH.
    by apply elem_of_cons in Hin as [->|Hin].
Qed.

(** Renaming leaves the cell of a label alone when the label keeps its
    name and no other label takes it. *)
Lemma cell_renamed (f : string -> string) (r : gmap string obj) k :
  (forall k', f k' = k <-> k' = k) ->
  cell (list_to_map (map (fun kv => (f kv.1, kv.2)) (map_to_list r))) k = cell r k.
Proof.
  intros Hf. unfold cell.
  assert (forall v,
             (list_to_map (map (fun kv : string * obj => (f kv.1, kv.2)) (map_to_list r))
                : gmap string obj) !! k = Some v -> r !! k = Some v) as Hback.
  { intros v Hv%elem_of_list_to_map_2.
    apply list_elem_of_fmap in Hv as ([k' v'] & [= Hk ->] & Hin).
    symmetry in Hk. apply Hf in Hk as ->. by apply elem_of_map_to_list in Hin. }
  destruct (list_to_map _ !! k) as [v|] eqn:Hlook.
  - by rewrite (Hback v eq_refl).
  - apply not_elem_of_list_to_map in Hlook.
    destruct (r !! k) as [v|] eqn:Hr; [|done]. exfalso. apply Hlook.
    apply list_elem_of_fmap. exists (k, v). split; [done|].
    apply list_elem_of_fmap. exists (k, v). split.
    + cbn. f_equal. symmetry. by apply Hf.
    + by apply elem_of_map_to_list.
Qed.

Lemma new_label_city k' : footfall_york.new_label k' = "city" <-> k' = "city".
Proof.
  unfold footfall_york.new_label. split; [|by intros ->].
  repeat case_decide; by subst.
Qed.

(** Where the Leeds cleaning drops the incomplete rows, [clean_df] of
    the York flow keeps every row.  For a raw frame that has none of
    the three new labels yet (so that the renaming makes no label
    twice), the frame it returns has the four output columns and as
    many rows as the frame it was given, no cell of it is missing (a
    missing cell is filled), and every row has [York] under [city]. *)
Theorem york_clean_frame_keeps_rows (d out : DataFrame obj) :
  (forall c, c ∈ ["timestamp"; "footfall_location"; "total_footfall"] -> c ∉ columns d) ->
  footfall_york.clean_frame d = Ok out ->
  columns out = ["city"; "footfall_location"; "timestamp"; "total_footfall"]
  /\ length (rows out) = length (rows d)
  /\ (forall r c, r ∈ rows out -> c ∈ columns out -> isna (cell r c) = false)
  /\ (forall r, r ∈ rows out -> cell r "city" = OStr "York").
Proof.
  unfold footfall_york.clean_frame. cbv zeta. intros _ Hrun.
  apply rbind_ok in Hrun as ([] & _ & Hrun).
  apply rbind_ok in Hrun as (d1 & [Hcols1 Hrows1]%assign_result_ok & Hrun).
  apply select_ok in Hrun as [-> Hpresent].
  unfold fillna, rename, assign in *. cbn [columns rows] in *.
  split; [done|]. split.
  { rewrite !length_map. apply Forall2_length in Hrows1.
    rewrite <- Hrows1. by rewrite length_map. }
  assert (forall r, r ∈ rows d1 -> cell r "city" = OStr "York") as Hcity.
  { intros r' (i & Hi)%list_elem_of_lookup_1.
    destruct (Forall2_lookup_r _ _ _ _ _ Hrows1 Hi) as (r0 & Hr0 & v & _ & ->).
    rewrite cell_insert_ne by discriminate.
    apply list_lookup_fmap_Some in Hr0 as (r00 & -> & _). apply cell_insert_eq. }
  split.
  - intros r c Hr Hc.
    apply list_elem_of_fmap in Hr as (r1 & -> & Hr1).
    apply list_elem_of_fmap in Hr1 as (r2 & -> & Hr2).
    rewrite cell_project by done.
    rewrite (cell_filled (fun c => if isna (cell r2 c) then OInt 0 else cell r2 c))
      by (apply Hpresent; exact Hc).
    by destruct (isna (cell r2 c)) eqn:Hna.
  - intros r Hr.
    apply list_elem_of_fmap in Hr as (r1 & -> & Hr1).
    apply list_elem_of_fmap in Hr1 as (r2 & -> & Hr2).
    apply list_elem_of_fmap in Hr2 as (r3 & -> & Hr3).
    rewrite cell_project by (apply (bool_decide_unpack _); by vm_compute).
    rewrite (cell_filled (fun c => if isna (cell _ c) then OInt 0 else cell _ c))
      by (apply Hpresent, (bool_decide_unpack _); by vm_compute).
    rewrite (cell_renamed footfall_york.new_label r3 "city" new_label_city).
    by rewrite (Hcity r3 Hr3).
Qed.

(** The York frame is cleaned once as well: a frame that has no [Date]
    column, as the cleaned frame, makes [clean_df] raise [KeyError]
    and change nothing. *)
Theorem york_clean_df_needs_date (m : machine) (d : DataFrame obj) :
  bus m !! "df" = Some (OFrame d) ->
  "Date" ∉ columns d ->
  footfall_york.clean_df TheBus m = (Raise (KeyError "Date"), m).
Proof.
  intros Hdf Hno. unfold footfall_york.clean_df.
  unfold bind at 1. rewrite (getitem_found _ _ _ Hdf).
  unfold bind at 1. cbn [lift as_frame].
  unfold bind at 1, lift. unfold footfall_york.clean_frame. cbv zeta.
  unfold require. cbn [columns assign].
  rewrite decide_False; [done|].
  rewrite elem_of_add_label. by intros [?|?].
Qed.

End york_more.

Section leeds_stage_more.
Context `{Services}.
Import pandas footfall_leeds.

Lemma foldM_invariant {A S} (P : S -> Prop) (body : S -> A -> M S) (xs : list A)
    acc m acc' m' :
  (forall acc x m acc' m', P acc -> body acc x m = (Ok acc', m') -> P acc') ->
  P acc -> foldM body xs acc m = (Ok acc', m') -> P acc'.
Proof.
  intros Hbody. revert acc m. induction xs as [|x xs IH]; intros acc m HP; cbn [foldM].
  - unfold ret. by intros [= <- <-].
  - intros (acc1 & m1 & Hstep & Hrest)%bind_ok. eapply IH; [|exact Hrest].
    by eapply Hbody.
Qed.

Lemma ret_ok {A} (a b : A) m m' : ret a m = (Ok b, m') -> b = a /\ m' = m.
Proof. unfold ret. by intros [= <- <-]. Qed.

(** When [download_data] returns, the data bus holds the list of file
    names, the dictionary of the frames read and the flag [dfs_raw],
    set; a name is in the list exactly when the dictionary has a frame
    under it, and the dictionary has no more frames than the list has
    names; no other key of the data bus has changed. *)
Theorem download_data_lists_frames (m m' : machine) (r : busref) :
  download_data TheBus m = (Ok r, m') ->
  exists file_list dfs,
    bus m' !! "file_list" = Some (OList file_list)
    /\ bus m' !! "dfs" = Some (ODict dfs)
    /\ bus m' !! "dfs_raw" = Some (OBool true)
    /\ (forall n, OStr n ∈ file_list <-> is_Some (dict_get dfs n))
    /\ (length dfs <= length file_list)%nat
    /\ (forall k, k <> "file_list" -> k <> "dfs" -> k <> "dfs_raw" ->
          bus m' !! k = bus m !! k).
Proof.
  unfold download_data. intros Hrun.
  apply bind_ok in Hrun as (api_url & ? & [_ ->]%getitem_ok & Hrun).
  apply bind_ok in Hrun as (response & m1 & Hget%call_ok & Hrun).
  apply bind_ok in Hrun as (api_response & ? & [_ ->]%lift_ok & Hrun).
  apply bind_ok in Hrun as (resources0 & ? & [_ ->]%lift_ok & Hrun).
  apply bind_ok in Hrun as (resources & ? & [_ ->]%lift_ok & Hrun).
  apply bind_ok in Hrun as ([file_list dfs] & m2 & Hloop & Hrun).
  apply bind_ok in Hrun as ([] & ? & [= <-] & Hrun).
  apply bind_ok in Hrun as ([] & ? & [= <-] & Hrun).
  apply bind_ok in Hrun as ([] & ? & [= <-] & Hrun).
  injection Hrun as <- <-. cbn [bus fst snd].
  assert (bus m2 = bus m1) as Hbus.
  { change m2 with ((Ok (file_list, dfs), m2).2). rewrite <- Hloop.
    refine (stable_foldM _ _ _ _ m1). intros acc x. stable. }
  assert ((forall n, OStr n ∈ file_list <-> is_Some (dict_get dfs n))
          /\ (length dfs <= length file_list)%nat) as [Hnames Hlen].
  { refine (foldM_invariant
              (fun acc : list obj * list (string * obj) =>
                 (forall n, OStr n ∈ acc.1 <-> is_Some (dict_get acc.2 n))
                 /\ (length acc.2 <= length acc.1)%nat)
              _ _ _ _ _ _ _ _ Hloop).
    - clear. intros [fl ds] [key file] m acc' m' [Hnames Hlen] Hbody.
      cbn [fst snd] in *.
      apply bind_ok in Hbody as (format & ? & [_ ->]%lift_ok & Hbody).
      destruct (str_equals format "csv");
        [|by apply ret_ok in Hbody as [-> _]].
      apply bind_ok in Hbody as (url0 & ? & [_ ->]%lift_ok & Hbody).
      apply bind_ok in Hbody as (url & ? & [_ ->]%lift_ok & Hbody).
      apply bind_ok in Hbody as (download_url0 & ? & [_ ->]%getitem_ok & Hbody).
      apply bind_ok in Hbody as (download_url & ? & [_ ->]%lift_ok & Hbody).
      apply bind_ok in Hbody as (exclude_files & ? & [_ ->]%getitem_ok & Hbody).
      apply bind_ok in Hbody as (excluded & ? & [_ ->]%lift_ok & Hbody).
      destruct excluded; [by apply ret_ok in Hbody as [-> _]|].
      apply bind_ok in Hbody as (df & ? & _ & Hbody).
      apply ret_ok in Hbody as [-> _]. cbn [fst snd].
      set (name := str_replace "%20" "_" (last_field "/" url)). split.
      + intros n. rewrite elem_of_app, list_elem_of_singleton.
        destruct (decide (name = n)) as [<-|Hne].
        * rewrite dict_get_set_eq. split; [eauto|by right].
        * rewrite dict_get_set_ne by done. rewrite Hnames. split; [|tauto].
          intros [?|[= ->]]; done.
      + rewrite length_app. cbn [length].
        assert (forall d k v, (length (dict_set d k v) <= S (length d))%nat) as Hset.
        { clear. intros d k v. induction d as [|[k' v'] d IH]; cbn; [lia|].
          destruct (decide (k' = k)); cbn; lia. }
        pose proof (Hset ds name df). lia.
    - split; [|done]. intros n. cbn. split; [by intros ?%elem_of_nil|by intros [? ?]]. }
  exists file_list, dfs.
  split; [by rewrite !lookup_insert_ne by done; rewrite lookup_insert_eq|].
  split; [by rewrite lookup_insert_ne by done; rewrite lookup_insert_eq|].
  split; [by rewrite lookup_insert_eq|].
  split; [exact Hnames|]. split; [exact Hlen|].
  intros k Hk1 Hk2 Hk3. rewrite !lookup_insert_ne by done. by rewrite Hbus, Hget.
Qed.

(** With no frame in [data_bus['dfs']] there is nothing to concatenate:
    [load_df_to_bigquery] of the Leeds flow raises [ValueError] before
    it calls the warehouse, at the first attempt and at each of its
    three retries. *)
Theorem load_df_to_bigquery_nothing_to_load (m : machine) (bq_dataset bq_table : string)
    (log : list string) :
  bus m !! "bq_dataset" = Some (OStr bq_dataset) ->
  bus m !! "bq_table" = Some (OStr bq_table) ->
  bus m !! "dfs" = Some (ODict []) ->
  load_df_to_bigquery TheBus m = (Raise ValueError, m)
  /\ run_task (Task "Load processed dataframes to BigQuery" 3 load_df_to_bigquery)
       TheBus m log
     = (Raise ValueError, m,
        log ++ replicate 4 "Load processed dataframes to BigQuery").
Proof.
  intros Hds Htable Hdfs.
  assert (load_df_to_bigquery TheBus m = (Raise ValueError, m)) as Hrun.
  { unfold load_df_to_bigquery.
    unfold bind at 1. rewrite (getitem_found _ _ _ Hds).
    unfold bind at 1. cbn [lift as_str].
    unfold bind at 1. rewrite (getitem_found _ _ _ Htable).
    unfold bind at 1. cbn [lift as_str].
    unfold bind at 1. rewrite (getitem_found _ _ _ Hdfs).
    unfold bind at 1. reflexivity. }
  split; [exact Hrun|].
  unfold run_task. cbn [retries run_attempts fn task_name]. rewrite !Hrun.
  by rewrite <- !app_assoc.
Qed.

End leeds_stage_more.

Section executor_more.
Context `{Services}.

Lemma run_attempts_length n t data_bus m log :
  (length log + 1 <= length (run_attempts n t data_bus m log).2
   <= length log + S n)%nat.
Proof.
  revert m log. induction n as [|n IH]; intros m log; cbn [run_attempts].
  - destruct (fn t data_bus m) as [[r|e] m1]; cbn [snd]; rewrite length_app; cbn; lia.
  - destruct (fn t data_bus m) as [[r|e] m1]; cbn [snd].
    + rewrite length_app. cbn. lia.
    + specialize (IH m1 (log ++ [task_name t])). rewrite length_app in IH. cbn in IH. lia.
Qed.

(** The loop over the stages runs no stage more often than once and
    its number of retries, and a flow that completes has run each of
    its stages at least once: the count of the runs is between the
    number of the stages and the sum of their allowed attempts. *)
Theorem run_stages_attempts (pipeline_stages : list task) (data_bus : busref)
    (m : machine) (log : list string) :
  (length (run_stages pipeline_stages data_bus m log).2
   <= length log + foldr (fun stage n => S (retries stage) + n) 0 pipeline_stages)%nat
  /\ (forall data_bus',
        (run_stages pipeline_stages data_bus m log).1.1 = Ok data_bus' ->
        (length log + length pipeline_stages
         <= length (run_stages pipeline_stages data_bus m log).2)%nat).
Proof.
  revert data_bus m log.
  induction pipeline_stages as [|stage rest IH]; intros data_bus m log;
    cbn [run_stages foldr length].
  - split; [cbn; lia|]. intros _ _. cbn. lia.
  - unfold run_task.
    pose proof (run_attempts_length (retries stage) stage data_bus m log) as Hone.
    destruct (run_attempts (retries stage) stage data_bus m log) as [[[b1|e] m1] log1];
      cbn [fst snd] in *.
    + destruct (IH b1 m1 log1) as [Hmost Hleast]. split; [lia|].
      intros b' Hok. specialize (Hleast b' Hok). lia.
    + split; [lia|]. intros b'. discriminate.
Qed.

End executor_more.

Section leeds_more_examples.
Import pandas footfall_leeds.

Lemma clean_hours_canonical_witness :
  @clean_hours example_services (OStr "9:30") = Ok "09:00:00"
  /\ @clean_hours example_services (OStr "09:00:00") = Ok "09:00:00".
Proof.
  assert (@clean_hours example_services (OStr "9:30") = Ok "09:00:00") as Hrun
    by reflexivity.
  split; [exact Hrun|].
  exact (proj2 (@clean_hours_canonical example_services _ _ Hrun)).
Defined.

Lemma clean_df_all_or_nothing_witness :
  exists m',
    clean_df TheBus "b.csv" example_raw_machine = (Raise (KeyError "b.csv"), m')
    /\ m' = example_raw_machine.
Proof.
  destruct (clean_df TheBus "b.csv" example_raw_machine) as [r m'] eqn:Hrun.
  assert (r = Raise (KeyError "b.csv")) as ->.
  { apply (f_equal fst) in Hrun. vm_compute in Hrun. congruence. }
  exists m'. split; [reflexivity|].
  exact (clean_df_all_or_nothing _ _ _ _ _ Hrun).
Defined.

Lemma clean_df_twice_raises_witness :
  exists r m',
    clean_df TheBus "a.csv" example_raw_machine = (Ok r, m')
    /\ exists e, clean_df TheBus "a.csv" m' = (Raise e, m').
Proof.
  destruct (clean_df TheBus "a.csv" example_raw_machine) as [[r|e] m'] eqn:Hrun.
  - exists r, m'. split; [reflexivity|].
    destruct (clean_df_twice_raises _ _ _ _ Hrun) as (dfs & out & _ & _ & _ & He).
    exact He.
  - apply (f_equal fst) in Hrun. vm_compute in Hrun. discriminate Hrun.
Defined.

Lemma clean_all_dfs_retry_stuck_witness :
  exists e,
    clean_all_dfs TheBus example_cleaned_machine = (Raise e, example_cleaned_machine)
    /\ run_attempts 3 (Task "Clean raw dataframes" 3 clean_all_dfs) TheBus
         example_cleaned_machine []
       = (Raise e, example_cleaned_machine, replicate 4 "Clean raw dataframes").
Proof.
  destruct (clean_all_dfs_retry_stuck example_cleaned_machine "a.csv"
              {| columns := ["city"; "footfall_location"; "timestamp"; "total_footfall"];
                 rows := [example_clean_row "Briggate" 100 (OInt 5);
                          example_clean_row "Briggate" 101 (OInt 7)] |}
              [("b.csv",
                OFrame {| columns := ["city"; "footfall_location"; "timestamp";
                                      "total_footfall"];
                          rows := [example_clean_row "Briggate" 100 (OFloat 5);
                                   example_clean_row "Briggate" 101 (OInt 8)] |})])
    as (e & Hall & Hretry).
  - apply lookup_singleton_eq.
  - apply (bool_decide_unpack _). by vm_compute.
  - exists e. split; [exact Hall|]. exact (Hretry 3%nat []).
Defined.

End leeds_more_examples.

Section stage_more_examples.

Lemma get_data_resets_response_witness :
  exists r m',
    @historic.get_data example_services TheBus example_weather_machine = (r, m')
    /\ bus example_weather_machine !! "api_response" = Some (OStr "stale")
    /\ r = Raise (KeyError "api_cities")
    /\ bus m' !! "api_response" = Some (ODict []).
Proof.
  destruct (@historic.get_data example_services TheBus example_weather_machine)
    as [r m'] eqn:Hrun.
  exists r, m'. split; [reflexivity|]. split; [by vm_compute|].
  assert (bus example_weather_machine !! "api_key" = Some (OStr "key")) as Hkey
    by (by vm_compute).
  assert (bus example_weather_machine !! "date" = Some (OTime 19553)) as Hdate
    by (by vm_compute).
  destruct (get_data_resets_response _ _ _ _ _ Hkey Hdate Hrun) as (_ & _ & Hnone).
  apply Hnone. by vm_compute.
Defined.



Lemma day_rows_kept_days_witness :
  holidays.day_rows example_days
  = Ok [[("date", OStr "2023-01-02"); ("name", OStr "New Year's Day")];
        [("date", OStr "2023-03-17"); ("name", OStr "St Patrick's Day")]]
  /\ columns (pandas.DataFrame_of_records
                [[("date", OStr "2023-01-02"); ("name", OStr "New Year's Day")];
                 [("date", OStr "2023-03-17"); ("name", OStr "St Patrick's Day")]])
     = ["date"; "name"].
Proof.
  assert (holidays.day_rows example_days
          = Ok [[("date", OStr "2023-01-02"); ("name", OStr "New Year's Day")];
                [("date", OStr "2023-03-17"); ("name", OStr "St Patrick's Day")]]) as Hrun
    by (by vm_compute).
  split; [exact Hrun|].
  exact (proj2 (proj2 (day_rows_kept_days _ _ Hrun))).
Defined.


Lemma download_data_lists_frames_witness :
  exists r m' file_list dfs,
    @footfall_leeds.download_data example_services TheBus example_settings_machine
    = (Ok r, m')
    /\ bus m' !! "file_list" = Some (OList file_list)
    /\ bus m' !! "dfs" = Some (ODict dfs)
    /\ (forall n, OStr n ∈ file_list <-> is_Some (dict_get dfs n)).
Proof.
  destruct (@footfall_leeds.download_data example_services TheBus example_settings_machine)
    as [[r|e] m'] eqn:Hrun.
  - destruct (download_data_lists_frames _ _ _ Hrun)
      as (file_list & dfs & Hlist & Hdfs & _ & Hnames & _).
    by exists r, m', file_list, dfs.
  - apply (f_equal fst) in Hrun. vm_compute in Hrun. discriminate Hrun.
Defined.

Lemma load_df_to_bigquery_nothing_to_load_witness :
  @footfall_leeds.load_df_to_bigquery example_services TheBus example_empty_machine
  = (Raise ValueError, example_empty_machine)
  /\ run_task (Task "Load processed dataframes to BigQuery" 3
                 (@footfall_leeds.load_df_to_bigquery example_services))
       TheBus example_empty_machine []
     = (Raise ValueError, example_empty_machine,
        replicate 4 "Load processed dataframes to BigQuery").
Proof.
  apply (load_df_to_bigquery_nothing_to_load example_empty_machine "footfall" "leeds" []).
  - by vm_compute.
  - by vm_compute.
  - by vm_compute.
Defined.

Lemma york_clean_frame_keeps_rows_witness :
  exists out,
    @footfall_york.clean_frame example_services example_york_frame = Ok out
    /\ length (rows out) = 2%nat
    /\ (forall r c, r ∈ rows out -> c ∈ columns out -> pandas.isna (pandas.cell r c) = false).
Proof.
  destruct (@footfall_york.clean_frame example_services example_york_frame)
    as [out|e] eqn:Hrun.
  - exists out. split; [reflexivity|].
    assert (forall c, c ∈ ["timestamp"; "footfall_location"; "total_footfall"] ->
                      c ∉ columns example_york_frame) as Hnew.
    { intros c [->|[->|[->|[]%elem_of_nil]%elem_of_cons]%elem_of_cons]%elem_of_cons;
        apply (bool_decide_unpack _); by vm_compute. }
    destruct (york_clean_frame_keeps_rows _ _ Hnew Hrun) as (_ & Hlen & Hfull & _).
    split; [exact Hlen|exact Hfull].
  - apply (f_equal (fun r => match r with Ok _ => true | Raise _ => false end)) in Hrun.
    vm_compute in Hrun. discriminate Hrun.
Defined.

Lemma york_clean_df_needs_date_witness :
  @footfall_york.clean_df example_services TheBus example_york_machine
  = (Raise (KeyError "Date"), example_york_machine).
Proof.
  apply (york_clean_df_needs_date example_york_machine
           {| columns := ["city"; "footfall_location"; "timestamp"; "total_footfall"];
              rows := [] |}).
  - by vm_compute.
  - apply (bool_decide_unpack _). by vm_compute.
Defined.

End stage_more_examples.
